(** * prytaneum-user-management: the error translator and the auth contract

    A shallow embedding of [src/lib/errors/index.ts] (the Express error
    handling middleware [errorHandler]) together with the objects it acts on:
    JavaScript values and their conversions, the Express response object
    with what [res.send()] does to it, the diagnostic logger and the
    environment configuration. *)

From Stdlib Require Import String Ascii List Bool ZArith NArith Lia.
From Stdlib Require Import PrimFloat SpecFloat FloatOps.
From Stdlib Require Import DecimalString DecimalN.
Import ListNotations.

Local Open Scope string_scope.
Local Open Scope list_scope.

(** ** JavaScript values *)

Module JS.

(** The primitive values that can sit in a property such as [err.status],
    [res.statusCode] or [env.NODE_ENV].  A number is an IEEE double.  A
    string is the sequence of its code units, one [ascii] each: the
    strings covered are those whose code units are all below 256. *)
Inductive value : Type :=
| VUndefined
| VNull
| VBool (b : bool)
| VNumber (n : float)
| VString (s : string).

(** [ToBoolean]: [undefined], [null], [false], [+0], [-0], [NaN] and the
    empty string are falsy, every other value is truthy. *)
Definition ToBoolean (v : value) : bool :=
  match v with
  | VUndefined => false
  | VNull => false
  | VBool b => b
  | VNumber n => negb (PrimFloat.eqb n 0%float || PrimFloat.is_nan n)
  | VString s => negb (String.eqb s EmptyString)
  end.

(** [a || b] evaluates to [a] when [a] is truthy and to [b] otherwise. *)
Definition or (a b : value) : value :=
  if ToBoolean a then a else b.

(** [a === b]: same type and same value; numbers compare as doubles. *)
Definition strict_eq (a b : value) : bool :=
  match a, b with
  | VUndefined, VUndefined => true
  | VNull, VNull => true
  | VBool x, VBool y => Bool.eqb x y
  | VNumber x, VNumber y => PrimFloat.eqb x y
  | VString x, VString y => String.eqb x y
  | _, _ => false
  end.

(** *** Numbers *)

(** The double that is the integer [z], rounded to nearest where [z] has
    more than 53 bits. *)
Definition number_of_Z (z : Z) : float :=
  SF2Prim (binary_normalize prec emax z 0 false).

(** The integer part of a number, truncated toward zero; 0 for [NaN] and the
    infinities. *)
Definition truncate (n : float) : Z :=
  match Prim2SF n with
  | S754_finite s m e =>
      let magnitude :=
        match e with
        | Zneg p => Z.shiftr (Zpos m) (Zpos p)
        | _ => Z.shiftl (Zpos m) e
        end in
      if s then Z.opp magnitude else magnitude
  | _ => 0%Z
  end.

(** [ToInt32]: the integer part modulo 2^32, read as a signed 32-bit
    integer.  [n | 0] is [ToInt32 n]. *)
Definition ToInt32 (n : float) : Z :=
  let int32bit := (truncate n mod 2 ^ 32)%Z in
  if (2 ^ 31 <=? int32bit)%Z then (int32bit - 2 ^ 32)%Z else int32bit.

(** *** [StringToNumber] *)

(** White space and line terminators, as far as they have code units below
    256: TAB, LF, VT, FF, CR, SP and NBSP. *)
Definition is_StrWhiteSpaceChar (c : ascii) : bool :=
  existsb (N.eqb (N_of_ascii c)) [9; 10; 11; 12; 13; 32; 160]%N.

Fixpoint trim_start (l : list ascii) : list ascii :=
  match l with
  | c :: r => if is_StrWhiteSpaceChar c then trim_start r else l
  | [] => []
  end.

Definition trim (l : list ascii) : list ascii :=
  rev (trim_start (rev (trim_start l))).

(** The value of a digit, hexadecimal digits included. *)
Definition digit (c : ascii) : option Z :=
  let n := Z.of_N (N_of_ascii c) in
  if ((48 <=? n) && (n <=? 57))%Z then Some (n - 48)%Z
  else if ((97 <=? n) && (n <=? 102))%Z then Some (n - 87)%Z
  else if ((65 <=? n) && (n <=? 70))%Z then Some (n - 55)%Z
  else None.

Fixpoint digits_value (base : Z) (l : list ascii) (acc : Z) : option Z :=
  match l with
  | [] => Some acc
  | c :: r =>
      match digit c with
      | Some d =>
          if (d <? base)%Z then digits_value base r (acc * base + d)%Z
          else None
      | None => None
      end
  end.

(** One digit or more in the given base, and nothing else. *)
Definition integer_literal (base : Z) (l : list ascii) : option Z :=
  match l with
  | [] => None
  | _ => digits_value base l 0%Z
  end.

Definition is_decimal_digit (c : ascii) : bool :=
  match digit c with
  | Some d => (d <? 10)%Z
  | None => false
  end.

(** The decimal digits a text starts with, and what follows them. *)
Fixpoint span_digits (l : list ascii) : list ascii * list ascii :=
  match l with
  | c :: r =>
      if is_decimal_digit c
      then let (ds, rest) := span_digits r in (c :: ds, rest)
      else ([], l)
  | [] => ([], [])
  end.

(** [ExponentPart], or nothing. *)
Definition exponent_part (l : list ascii) : option Z :=
  match l with
  | [] => Some 0%Z
  | c :: r =>
      if Ascii.eqb c "e" || Ascii.eqb c "E" then
        match r with
        | "+"%char :: ds => integer_literal 10 ds
        | "-"%char :: ds => option_map Z.opp (integer_literal 10 ds)
        | ds => integer_literal 10 ds
        end
      else None
  end.

(** The double nearest to [m * 10^k], ties to even, for [m] of at most
    [len] decimal digits.  Beyond [10^310] the result is an infinity and
    below [10^-330] a zero, whatever the digits. *)
Definition decimal_value (negative : bool) (m k len : Z) : spec_float :=
  if (m =? 0)%Z then S754_zero negative
  else if (310 <=? k)%Z then S754_infinity negative
  else if (len + k <=? -330)%Z then S754_zero negative
  else
    match k with
    | Zneg p =>
        let '(q, e, l) := SFdiv_core_binary prec emax m 0 (10 ^ Zpos p) 0 in
        binary_round_aux prec emax negative q e l
    | _ =>
        binary_normalize prec emax
          (if negative then - (m * 10 ^ k) else m * 10 ^ k)%Z 0 negative
    end.

(** [StrUnsignedDecimalLiteral]: [Infinity], or digits with an optional
    fraction and an optional exponent. *)
Definition unsigned_decimal (negative : bool) (l : list ascii)
  : spec_float :=
  if list_eq_dec Ascii.ascii_dec l (list_ascii_of_string "Infinity")
  then S754_infinity negative
  else
    let (int_part, after_int) := span_digits l in
    let (frac_part, after_frac) :=
      match after_int with
      | "."%char :: r => span_digits r
      | _ => ([], after_int)
      end in
    match int_part ++ frac_part, exponent_part after_frac with
    | [], _ => S754_nan
    | _, None => S754_nan
    | ds, Some ex =>
        match digits_value 10 ds 0%Z with
        | Some m =>
            decimal_value negative m (ex - Z.of_nat (length frac_part))
                          (Z.of_nat (length ds))
        | None => S754_nan
        end
    end.

(** [NonDecimalIntegerLiteral]: [0x], [0o] and [0b] literals, which take no
    sign. *)
Definition non_decimal (l : list ascii) : option spec_float :=
  match l with
  | "0"%char :: c :: ds =>
      let literal base :=
        Some match integer_literal base ds with
             | Some m => binary_normalize prec emax m 0 false
             | None => S754_nan
             end in
      if Ascii.eqb c "x" || Ascii.eqb c "X" then literal 16%Z
      else if Ascii.eqb c "o" || Ascii.eqb c "O" then literal 8%Z
      else if Ascii.eqb c "b" || Ascii.eqb c "B" then literal 2%Z
      else None
  | _ => None
  end.

(** [StringToNumber]: white space is trimmed; the empty text is [+0]; a
    text that is no numeric literal is [NaN]. *)
Definition StringToNumber (s : string) : float :=
  let l := trim (list_ascii_of_string s) in
  SF2Prim
    match l with
    | [] => S754_zero false
    | _ =>
        match non_decimal l with
        | Some x => x
        | None =>
            match l with
            | "+"%char :: r => unsigned_decimal false r
            | "-"%char :: r => unsigned_decimal true r
            | _ => unsigned_decimal false l
            end
        end
    end.

(** [ToNumber] *)
Definition ToNumber (v : value) : float :=
  match v with
  | VUndefined => nan
  | VNull => 0%float
  | VBool b => if b then 1%float else 0%float
  | VNumber n => n
  | VString s => StringToNumber s
  end.

End JS.

Import JS.

(** ** Error values *)

(** The classes an error value can be an instance of, as far as
    [err instanceof ClientError] can tell them apart. *)
Inductive ErrorClass : Type :=
| ClientError
| OtherError.

(** Modelled from the spec: the class [ClientError] of [./client] is not among
    the sources; it is "a tagged error carrying a user-facing
    message and an internal diagnostic message".  The record is an error
    object as the handler sees it: its class, the [message] every [Error]
    has, the [internalError] of a [ClientError], and the [status] property,
    which is [VUndefined] when no status is attached. *)
Record JSError : Type := mkError {
  class : ErrorClass;
  message : string;
  internalError : string;
  status : value
}.

Definition instanceof_ClientError (err : JSError) : bool :=
  match class err with
  | ClientError => true
  | OtherError => false
  end.

Definition with_internalError (s : string) (err : JSError) : JSError :=
  mkError (class err) (message err) s (status err).


(** ** The Express request and response objects *)

Module Express.

(** The request.  [validators_fresh] is what the [fresh] module answers when
    [req.fresh] hands it the conditional headers of the request and the
    [ETag] and [Last-Modified] of the response. *)
Record Request : Type := mkRequest {
  method : string;
  url : string;
  headers : list (string * string);
  body : value;
  validators_fresh : bool
}.

(** What goes over the wire when the head of a response is written: the
    status code and the status message of the status line, and the body
    ([None] for no body). *)
Record Sent : Type := mkSent {
  sent_status : value;
  sent_statusMessage : value;
  sent_body : option value
}.

(** The response object: the two properties the handler touches, whether
    the head has gone out already ([res.headersSent]), how often [send] was
    called, and every response transmitted on it, oldest first. *)
Record Response : Type := mkResponse {
  statusCode : value;
  statusMessage : value;
  headersSent : bool;
  send_calls : nat;
  sent : list Sent
}.

(** The errors [send] can throw. *)
Inductive Exception : Type :=
| ERR_HTTP_HEADERS_SENT
| ERR_HTTP_INVALID_STATUS_CODE (original : value)
| ERR_INVALID_CHAR.

(** A response as Express hands it to the first middleware. *)
Definition fresh : Response :=
  mkResponse (VNumber 200) VUndefined false 0 [].

(** [res.statusMessage = v] *)
Definition set_statusMessage (v : value) (r : Response) : Response :=
  mkResponse (statusCode r) v (headersSent r) (send_calls r) (sent r).

(** [res.status(code)] stores the code and returns the response. *)
Definition status (code : value) (r : Response) : Response :=
  mkResponse code (statusMessage r) (headersSent r) (send_calls r) (sent r).

(** [http.STATUS_CODES] *)
Definition STATUS_CODES (code : Z) : option string :=
  match code with
  | 100 => Some "Continue"
  | 101 => Some "Switching Protocols"
  | 102 => Some "Processing"
  | 103 => Some "Early Hints"
  | 200 => Some "OK"
  | 201 => Some "Created"
  | 202 => Some "Accepted"
  | 203 => Some "Non-Authoritative Information"
  | 204 => Some "No Content"
  | 205 => Some "Reset Content"
  | 206 => Some "Partial Content"
  | 207 => Some "Multi-Status"
  | 208 => Some "Already Reported"
  | 226 => Some "IM Used"
  | 300 => Some "Multiple Choices"
  | 301 => Some "Moved Permanently"
  | 302 => Some "Found"
  | 303 => Some "See Other"
  | 304 => Some "Not Modified"
  | 305 => Some "Use Proxy"
  | 307 => Some "Temporary Redirect"
  | 308 => Some "Permanent Redirect"
  | 400 => Some "Bad Request"
  | 401 => Some "Unauthorized"
  | 402 => Some "Payment Required"
  | 403 => Some "Forbidden"
  | 404 => Some "Not Found"
  | 405 => Some "Method Not Allowed"
  | 406 => Some "Not Acceptable"
  | 407 => Some "Proxy Authentication Required"
  | 408 => Some "Request Timeout"
  | 409 => Some "Conflict"
  | 410 => Some "Gone"
  | 411 => Some "Length Required"
  | 412 => Some "Precondition Failed"
  | 413 => Some "Payload Too Large"
  | 414 => Some "URI Too Long"
  | 415 => Some "Unsupported Media Type"
  | 416 => Some "Range Not Satisfiable"
  | 417 => Some "Expectation Failed"
  | 418 => Some "I'm a Teapot"
  | 421 => Some "Misdirected Request"
  | 422 => Some "Unprocessable Entity"
  | 423 => Some "Locked"
  | 424 => Some "Failed Dependency"
  | 425 => Some "Too Early"
  | 426 => Some "Upgrade Required"
  | 428 => Some "Precondition Required"
  | 429 => Some "Too Many Requests"
  | 431 => Some "Request Header Fields Too Large"
  | 451 => Some "Unavailable For Legal Reasons"
  | 500 => Some "Internal Server Error"
  | 501 => Some "Not Implemented"
  | 502 => Some "Bad Gateway"
  | 503 => Some "Service Unavailable"
  | 504 => Some "Gateway Timeout"
  | 505 => Some "HTTP Version Not Supported"
  | 506 => Some "Variant Also Negotiates"
  | 507 => Some "Insufficient Storage"
  | 508 => Some "Loop Detected"
  | 509 => Some "Bandwidth Limit Exceeded"
  | 510 => Some "Not Extended"
  | 511 => Some "Network Authentication Required"
  | _ => None
  end%Z.

(** [STATUS_CODES[statusCode] || 'unknown'] *)
Definition default_statusMessage (code : Z) : string :=
  match STATUS_CODES code with
  | Some phrase => phrase
  | None => "unknown"
  end.

(** [checkInvalidHeaderChar]: whether a text holds a character outside TAB,
    [0x20]-[0x7e] and [0x80]-[0xff]. *)
Definition checkInvalidHeaderChar (s : string) : bool :=
  existsb
    (fun c =>
       let n := N_of_ascii c in
       ((n <? 32) && negb (n =? 9) || (n =? 127))%N)
    (list_ascii_of_string s).

(** [checkInvalidHeaderChar] on the status message a response holds.  The
    text of a boolean or of a number has no illegal character. *)
Definition invalid_statusMessage (v : value) : bool :=
  match v with
  | VString s => checkInvalidHeaderChar s
  | _ => false
  end.

(** The status message [writeHead] puts on the status line:
    [this.statusMessage], or the default for the code where that is
    falsy. *)
Definition reason (v : value) (code : Z) : value :=
  if ToBoolean v then v else VString (default_statusMessage code).

(** [statusCode |= 0] *)
Definition int32 (status : value) : Z := ToInt32 (ToNumber status).

(** [writeHead(this.statusCode)], which [end] calls while no head has been
    written: the status is truncated by [statusCode |= 0] and must lie in
    100..999; an unset status message is replaced by the default one, and
    both are stored on the response; the status message must have no illegal
    character; then the head goes out. *)
Definition writeHead (r : Response) : option Exception * Response :=
  let code := int32 (statusCode r) in
  if ((code <? 100) || (999 <? code))%Z then
    (Some (ERR_HTTP_INVALID_STATUS_CODE (statusCode r)), r)
  else
    let message := reason (statusMessage r) code in
    let status := VNumber (number_of_Z code) in
    if invalid_statusMessage message then
      (Some ERR_INVALID_CHAR,
       mkResponse status message (headersSent r) (send_calls r) (sent r))
    else
      (None,
       mkResponse status message true (send_calls r)
                  (sent r ++ [mkSent status message None])).

(** [res.end()]: on a response whose head has gone out nothing more is
    transmitted. *)
Definition end_ (r : Response) : option Exception * Response :=
  if headersSent r then (None, r) else writeHead r.

(** [(status >= 200 && status < 300) || 304 === status] *)
Definition cacheable_status (status : value) : bool :=
  (PrimFloat.leb 200 (ToNumber status) && PrimFloat.ltb (ToNumber status) 300)
  || strict_eq (VNumber 304) status.

(** [req.fresh], for a response that holds the status [status]. *)
Definition req_fresh (req : Request) (status : value) : bool :=
  (String.eqb (method req) "GET" || String.eqb (method req) "HEAD")
  && cacheable_status status
  && validators_fresh req.

(** The statuses for which [send] strips or sets headers before it ends the
    response: 204 and 304, and 205. *)
Definition alters_headers (status : value) : bool :=
  strict_eq (VNumber 204) status
  || strict_eq (VNumber 304) status
  || strict_eq status (VNumber 205).

(** [if (req.fresh) this.statusCode = 304]: the status [send] goes on
    with. *)
Definition freshened (req : Request) (status : value) : value :=
  if req_fresh req status then VNumber 304 else status.

(** [res.send()], called without a body, of Express 4: a fresh request turns
    the status into 304; for 204, 304 and 205 headers are removed or set,
    which throws once the head has gone out; then the response is ended. *)
Definition send (req : Request) (r : Response) : option Exception * Response :=
  let r :=
    mkResponse (freshened req (statusCode r))
      (statusMessage r) (headersSent r) (S (send_calls r)) (sent r) in
  if alters_headers (statusCode r) && headersSent r
  then (Some ERR_HTTP_HEADERS_SENT, r)
  else end_ r.

(** What a call of [send] works with: the status after the freshness
    check, that status as [writeHead] truncates it, and the status message
    [writeHead] settles on. *)
Definition sending_status (req : Request) (r : Response) : value :=
  freshened req (statusCode r).

Definition sending_code (req : Request) (r : Response) : Z :=
  int32 (sending_status req r).

Definition sending_message (req : Request) (r : Response) : value :=
  reason (statusMessage r) (sending_code req r).

End Express.

(** ** The world the handler runs in *)

(** Modelled from the spec: [config/env] is not among the sources; it is
    the "environment configuration (signing secret, environment name
    for log gating)".  A deleted key reads as [VUndefined] / [None]. *)
Record Env : Type := mkEnv {
  NODE_ENV : value;
  JWT_SECRET : option string
}.

(** The mutable objects a call of the handler can reach: the response it was
    given, the diagnostic log behind [Log.err], and how often [next] ran. *)
Record World : Type := mkWorld {
  res : Express.Response;
  log : list string;
  next_calls : nat
}.

(** How a computation ends: normally, or by throwing. *)
Inductive Completion (A : Type) : Type :=
| Normal (a : A)
| Throw (e : Express.Exception).

Arguments Normal {A} a.
Arguments Throw {A} e.

(** A computation over the world. *)
Definition M (A : Type) : Type := World -> Completion A * World.

Definition ret {A : Type} (a : A) : M A := fun w => (Normal a, w).

(** Sequencing: what follows a throw does not run. *)
Definition bind {A B : Type} (m : M A) (k : A -> M B) : M B :=
  fun w =>
    match m w with
    | (Normal a, w') => k a w'
    | (Throw e, w') => (Throw e, w')
    end.

Notation "m1 ;; m2" := (bind m1 (fun _ => m2))
  (at level 61, right associativity).

Definition exec {A : Type} (m : M A) (w : World) : World := snd (m w).

Definition on_res (f : Express.Response -> Express.Response) : M unit :=
  fun w => (Normal tt, mkWorld (f (res w)) (log w) (next_calls w)).

Definition res_set_statusMessage (v : value) : M unit :=
  on_res (Express.set_statusMessage v).

Definition res_status (code : value) : M unit :=
  on_res (Express.status code).

Definition res_send (req : Express.Request) : M unit :=
  fun w =>
    let (thrown, r) := Express.send req (res w) in
    (match thrown with
     | None => Normal tt
     | Some e => Throw e
     end,
     mkWorld r (log w) (next_calls w)).

(** Modelled from the spec: [Log.err] of [../logger/log] is not among the
    sources; it "emits" its argument "to a diagnostic log". *)
Definition Log_err (line : string) : M unit :=
  fun w => (Normal tt, mkWorld (res w) (log w ++ [line]) (next_calls w)).

(** The continuation Express passes as [next]. *)
Definition next : M unit :=
  fun w => (Normal tt, mkWorld (res w) (log w) (S (next_calls w))).

(** ** [errorHandler] *)

Definition is_development_or_test (e : Env) : bool :=
  strict_eq (NODE_ENV e) (VString "development")
  || strict_eq (NODE_ENV e) (VString "test").

(** [errorHandler(err, req, res, next)].  The response [res] is the one of the
    world the computation runs in, and [req] is the request it answers;
    [env] is the imported configuration, read when the handler runs. *)
Definition errorHandler (env : Env)
    (err : JSError) (req : Express.Request) (next : M unit) : M unit :=
  if instanceof_ClientError err then
    res_set_statusMessage (VString (message err)) ;;
    (if is_development_or_test env then
       Log_err ("Client Message: " ++ message err) ;;
       Log_err ("Server Message: " ++ internalError err)
     else ret tt) ;;
    res_status (VNumber 400) ;;
    res_send req
  else
    let status := JS.or (status err) (VNumber 400) in
    res_status status ;;
    res_send req.

(** The world a call [errorHandler(err, req, res, next)] leaves behind. *)
Definition handled (env : Env) (err : JSError) (req : Express.Request)
    (k : M unit) (w : World) : World :=
  exec (errorHandler env err req k) w.

(** What the call throws, if it throws.  What Express does with an error
    thrown by an error handler is not the handler's doing and is left
    out. *)
Definition thrown (env : Env) (err : JSError) (req : Express.Request)
    (k : M unit) (w : World) : option Express.Exception :=
  match fst (errorHandler env err req k w) with
  | Normal _ => None
  | Throw e => Some e
  end.

(** The transmission a response made last, if it made any. *)
Definition last_sent (r : Express.Response) : option Express.Sent :=
  hd_error (rev (Express.sent r)).

(** What was transmitted between two states of the world. *)
Definition transmitted (w w' : World) : list Express.Sent :=
  skipn (length (Express.sent (res w))) (Express.sent (res w')).

(** The lines [Log.err] receives for a [ClientError] in development or test. *)
Definition diagnostics (err : JSError) : list string :=
  [("Client Message: " ++ message err)%string;
   ("Server Message: " ++ internalError err)%string].

(** The status the handler hands to [res.status]. *)
Definition answer_status (err : JSError) : value :=
  if instanceof_ClientError err then VNumber 400
  else JS.or (status err) (VNumber 400).

(** The status message the response holds when the handler calls [send]. *)
Definition answer_statusMessage (err : JSError) (r : Express.Response)
  : value :=
  if instanceof_ClientError err then VString (message err)
  else Express.statusMessage r.

(** The response as the handler has prepared it when it calls [send]. *)
Definition prepared (err : JSError) (r : Express.Response)
  : Express.Response :=
  Express.mkResponse (answer_status err) (answer_statusMessage err r)
    (Express.headersSent r) (Express.send_calls r) (Express.sent r).

(** * The auth handler *)

(** The routes behind [/api/auth/login], [/api/auth/register] and
    [/api/auth/authenticate], with the account and token services they call
    ([lib/accounts], [lib/jwt/jwt], [db/users]), are driven by the test suite
    but are not among the sources. *)

Module Auth.

Local Open Scope string_scope.

(** Modelled from the spec: the error taxonomy of the auth handler, which is
    not among the sources: "ValidationError (malformed/missing input),
    AuthenticationError (credential or token rejection), ConflictError
    (duplicate resource), ServerConfigurationError (missing required
    secret/config)". *)
Inductive AuthError : Type :=
| ValidationError
| AuthenticationError
| ConflictError
| ServerConfigurationError.

(** Modelled from the spec: the status each kind of failure is answered
    with; the mapping itself is not among the sources: "ValidationError (maps
    to 400)", "AuthenticationError (401)", "ConflictError (400 per observed
    mapping)", "ServerConfigurationError (500)". *)
Definition status_of (e : AuthError) : N :=
  match e with
  | ValidationError => 400
  | AuthenticationError => 401
  | ConflictError => 400
  | ServerConfigurationError => 500
  end.

Inductive Outcome (A : Type) : Type :=
| Ok (a : A)
| Fail (e : AuthError).

Arguments Ok {A} a.
Arguments Fail {A} e.

(** Modelled from the spec: what a route answers, as far as the status
    contracts of the endpoints say: the status and, after a login, the
    token ("200 + token"), which the test suite reads as [body.jwt]. *)
Record Reply : Type := mkReply {
  status : N;
  jwt : option string
}.

(** Modelled from the spec: the user record of [db/users], which is not among
    the sources: "username (unique), email (unique), password (hashed, not
    stored/compared in plaintext), roles (set of role tags), identifier
    (opaque unique id)". *)
Record User : Type := mkUser {
  _id : N;
  username : string;
  email : string;
  password : string;
  userRoles : list string
}.

(** Modelled from the spec: the "persistent user store (lookup, create,
    update by email/id)" behind [db/users], which is not among the sources;
    the records are kept oldest first. *)
Definition Store : Type := list User.

(** Modelled from the spec: the lookup of the user store, by username. *)
Definition findByUsername (name : string) (users : Store) : option User :=
  find (fun u => String.eqb (username u) name) users.

(** Modelled from the spec: the content of a session token, which
    [lib/jwt/jwt] (not among the sources) signs: a "signed credential
    containing user identifier and expiry". *)
Record Claims : Type := mkClaims {
  sub : N;
  exp : N
}.

(** ** The token as a string *)

(** Modelled from the spec: how [lib/jwt/jwt] (not among the sources) writes
    the claims into a token.  The spec fixes no format; the identifier and
    the expiry are written in decimal, with a comma between them. *)
Definition digits (n : N) : string :=
  NilEmpty.string_of_uint (N.to_uint n).

(** Modelled from the spec: reading a decimal number back. *)
Definition number (s : string) : option N :=
  option_map N.of_uint (NilEmpty.uint_of_string s).

(** [free sep s]: [sep] does not occur in [s]. *)
Fixpoint free (sep : ascii) (s : string) : bool :=
  match s with
  | EmptyString => true
  | String c r => negb (Ascii.eqb c sep) && free sep r
  end.

(** [cut sep s] splits [s] at the first [sep]. *)
Fixpoint cut (sep : ascii) (s : string) : option (string * string) :=
  match s with
  | EmptyString => None
  | String c r =>
      if Ascii.eqb c sep then Some (EmptyString, r)
      else match cut sep r with
           | Some (a, b) => Some (String c a, b)
           | None => None
           end
  end.

(** Modelled from the spec: the claims as the payload of a token. *)
Definition encode (c : Claims) : string :=
  digits (sub c) ++ "," ++ digits (exp c).

(** Modelled from the spec: the claims read back from a payload. *)
Definition decode (s : string) : option Claims :=
  match cut "," s with
  | Some (a, b) =>
      match number a, number b with
      | Some i, Some t => Some (mkClaims i t)
      | _, _ => None
      end
  | None => None
  end.

Section Service.

(** The password hash and the keyed signature are those of the libraries the
    application is built on; nothing below depends on which they are. *)
Variable hash : string -> string.
Variable mac : string -> string -> string.

(** The lifetime of a session token. *)
Variable session : N.

(** Modelled from the spec: [jwt.sign] of [lib/jwt/jwt], which is not among
    the sources.  The token is the encoded claims, a dot, and the signature of
    the encoded claims under the configured secret; "signing-key
    misconfiguration (missing secret) at sign time fails with
    ServerConfigurationError". *)
Definition sign (env : Env) (now : N) (id : N) (expiresIn : N)
  : Outcome string :=
  match JWT_SECRET env with
  | Some secret =>
      let payload := encode (mkClaims id (now + expiresIn)) in
      Ok (payload ++ "." ++ mac secret payload)
  | None => Fail ServerConfigurationError
  end.

(** Modelled from the spec: [jwt.verify] of [lib/jwt/jwt], which is not among
    the sources: "validity determined purely by signature and expiry at
    verification time".  The signature found in the token must be the one
    the secret gives for the payload found in the token, and the expiry must
    lie ahead. *)
Definition verify (env : Env) (now : N) (token : string) : option Claims :=
  match JWT_SECRET env, cut "." token with
  | Some secret, Some (payload, signature) =>
      if String.eqb signature (mac secret payload) then
        match decode payload with
        | Some c => if (now <? exp c)%N then Some c else None
        | None => None
        end
      else None
  | _, _ => None
  end.

(** Modelled from the spec: the login operation, which is not among the
    sources: "inputs username, password.  Missing either fails with
    ValidationError.  Unknown username or wrong password fails with
    AuthenticationError.  Valid credentials issues a signed session token.
    Signing-key misconfiguration (missing secret) at sign time fails with
    ServerConfigurationError". *)
Definition login (env : Env) (now : N) (users : Store)
    (name pass : option string) : Outcome string :=
  match name, pass with
  | Some name, Some pass =>
      match findByUsername name users with
      | Some user =>
          if String.eqb (hash pass) (password user)
          then sign env now (_id user) session
          else Fail AuthenticationError
      | None => Fail AuthenticationError
      end
  | _, _ => Fail ValidationError
  end.

(** Modelled from the spec: the route [POST /api/auth/login], which is not
    among the sources: "200 + token; missing fields: 400; bad password: 401;
    signing misconfigured: 500". *)
Definition post_login (env : Env) (now : N) (users : Store)
    (name pass : option string) : Reply :=
  match login env now users name pass with
  | Ok token => mkReply 200 (Some token)
  | Fail e => mkReply (status_of e) None
  end.

(** Modelled from the spec: the authenticate operation, which is not among
    the sources: "inputs a bearer token.  Valid, untampered, unexpired
    signature: 200.  Any tampering (signature mismatch):
    AuthenticationError (401)". *)
Definition authenticate (env : Env) (now : N) (token : string)
  : Outcome Claims :=
  match verify env now token with
  | Some c => Ok c
  | None => Fail AuthenticationError
  end.

(** Modelled from the spec: the route [POST /api/auth/authenticate], which
    is not among the sources: "200; invalid/tampered token: 401". *)
Definition post_authenticate (env : Env) (now : N) (token : string) : Reply :=
  match authenticate env now token with
  | Ok _ => mkReply 200 None
  | Fail e => mkReply (status_of e) None
  end.

(** Modelled from the spec: the form of [POST /api/auth/register]: "form
    {username, email, password, confirmPassword}". *)
Record Form : Type := mkForm {
  form_username : string;
  form_email : string;
  form_password : string;
  form_confirmPassword : string
}.

(** Modelled from the spec: "duplicate username or email" against one
    record of the store. *)
Definition taken (f : Form) (u : User) : bool :=
  String.eqb (username u) (form_username f)
  || String.eqb (email u) (form_email f).

(** Modelled from the spec: the "opaque unique id" of a new record: an
    identifier no record of the store has. *)
Definition fresh_id (users : Store) : N :=
  N.succ (fold_right (fun u m => N.max (_id u) m) 0%N users).

(** Modelled from the spec: the register operation, which is not among the
    sources: "inputs form {username, email, password, confirmPassword}.
    Password/confirmation mismatch: ValidationError.  Duplicate username or
    email: ConflictError.  Success creates User".  The result is the outcome
    and the store after the call. *)
Definition register (users : Store) (f : Form) : Outcome User * Store :=
  if negb (String.eqb (form_password f) (form_confirmPassword f))
  then (Fail ValidationError, users)
  else if existsb (taken f) users
  then (Fail ConflictError, users)
  else
    let user := mkUser (fresh_id users) (form_username f) (form_email f)
                       (hash (form_password f)) ["user"] in
    (Ok user, (users ++ [user])%list).

(** Modelled from the spec: the route [POST /api/auth/register], which is
    not among the sources: "200; duplicate user: 400; password mismatch:
    400". *)
Definition post_register (users : Store) (f : Form) : Reply * Store :=
  match register users f with
  | (Ok _, users') => (mkReply 200 None, users')
  | (Fail e, users') => (mkReply (status_of e) None, users')
  end.

End Service.

End Auth.

(** * Sample inputs for the worked instances *)

Definition production : Env := mkEnv (VString "production") (Some "s3cret").
Definition development : Env := mkEnv (VString "development") (Some "s3cret").
Definition login_request : Express.Request :=
  Express.mkRequest "POST" "/api/auth/login" [] VUndefined false.
Definition register_request : Express.Request :=
  Express.mkRequest "POST" "/api/auth/register"
    [("Content-Type", "application/json")] (VString "{}") false.

(** A conditional [GET] that the response validators leave fresh. *)
Definition conditional_get : Express.Request :=
  Express.mkRequest "GET" "/api/users" [("if-none-match", "*")]
    VUndefined true.

Definition world0 : World := mkWorld Express.fresh [] 0.
Definition bad_form : JSError :=
  mkError ClientError "Passwords do not match" "confirmPassword differs"
          (VNumber 404).
Definition not_found : JSError :=
  mkError OtherError "Not Found" EmptyString (VNumber 404).
Definition zero_status : JSError :=
  mkError OtherError "boom" EmptyString (VNumber 0).

(** A [ClientError] whose message runs over two lines. *)
Definition two_lines : JSError :=
  mkError ClientError ("Bad" ++ String "010" "request") "why" VUndefined.

(** An error that carries a status no response can have. *)
Definition status_1000 : JSError :=
  mkError OtherError "boom" EmptyString (VNumber 1000).

(** A response on which an earlier middleware has set a status message. *)
Definition world_with_statusMessage : World :=
  mkWorld (Express.set_statusMessage (VString "I'm a teapot") Express.fresh)
          [] 0.

(** A response that has been sent already. *)
Definition world_sent : World :=
  mkWorld
    (Express.mkResponse (VNumber 200) (VString "OK") true 1
       [Express.mkSent (VNumber 200) (VString "OK") None])
    [] 0.

(** A stand-in for the password hash. *)
Definition sample_hash (s : string) : string := "hashed:" ++ s.

(** A stand-in for the keyed signature: a checksum of key and message. *)
Fixpoint checksum (s : string) (acc : N) : N :=
  match s with
  | EmptyString => acc
  | String c r => checksum r ((31 * acc + N_of_ascii c) mod 65521)%N
  end.

Definition sample_mac (key msg : string) : string :=
  Auth.digits (checksum msg (checksum key 1%N)).

(** The account the test suite registers before it runs. *)
Definition mockUser : Auth.User :=
  Auth.mkUser 1 "__test__" "__test__@__test__.com" (sample_hash "1") ["user"].

Definition unconfigured : Env := mkEnv VUndefined None.

(** The token a login of the sample account yields at time 0. *)
Definition sample_token : string :=
  Eval cbv in
    match Auth.sign sample_mac production 0 1 3600 with
    | Auth.Ok token => token
    | Auth.Fail _ => EmptyString
    end.

(** * Properties of [errorHandler] *)

(** ** Numbers *)

Lemma ToBoolean_or (a b : value) :
  ToBoolean (JS.or a b) = ToBoolean a || ToBoolean b.
Proof.
  unfold JS.or. destruct (ToBoolean a) eqn:Ha; [now rewrite Ha | reflexivity].
Qed.

(** A status code that passes [writeHead] survives the trip through a
    double, and is truthy. *)
Lemma status_code_number (code : Z) :
  (100 <= code <= 999)%Z ->
  ToInt32 (number_of_Z code) = code
  /\ ToBoolean (VNumber (number_of_Z code)) = true.
Proof.
  intros Hcode.
  assert (Hall :
    forallb (fun n => let c := Z.of_nat n in
                      (ToInt32 (number_of_Z c) =? c)%Z
                      && ToBoolean (VNumber (number_of_Z c)))
            (seq 100 900) = true) by (vm_compute; reflexivity).
  rewrite forallb_forall in Hall.
  specialize (Hall (Z.to_nat code)).
  rewrite Z2Nat.id in Hall by lia. cbn zeta in Hall.
  assert (Hin : In (Z.to_nat code) (seq 100 900)) by (apply in_seq; lia).
  apply Hall in Hin. apply andb_true_iff in Hin as [H1 H2].
  split; [now apply Z.eqb_eq | exact H2].
Qed.

Lemma VNumber_400_neq_0 : VNumber 400 <> VNumber 0.
Proof.
  intro H.
  assert (E : strict_eq (VNumber 400) (VNumber 400) = true) by reflexivity.
  rewrite H in E at 2. discriminate E.
Qed.

Lemma strict_eq_VString (v : value) (s : string) :
  strict_eq v (VString s) = true <-> v = VString s.
Proof.
  destruct v as [ | | b | n | t]; cbn; try (split; discriminate).
  rewrite String.eqb_eq. split; [now intros -> | now intros [= ->]].
Qed.

Lemma is_development_or_test_spec (e : Env) :
  is_development_or_test e = true
  <-> NODE_ENV e = VString "development" \/ NODE_ENV e = VString "test".
Proof.
  unfold is_development_or_test.
  now rewrite orb_true_iff, !strict_eq_VString.
Qed.

(** ** What [send] does *)

Lemma send_headersSent (req : Express.Request) (r : Express.Response) :
  Express.headersSent r = true ->
  Express.send req r
  = (if Express.alters_headers (Express.sending_status req r)
     then Some Express.ERR_HTTP_HEADERS_SENT else None,
     Express.mkResponse (Express.sending_status req r)
       (Express.statusMessage r) true
       (S (Express.send_calls r)) (Express.sent r)).
Proof.
  intros Hsent.
  unfold Express.send, Express.end_, Express.sending_status. cbn.
  rewrite Hsent, andb_true_r.
  now destruct (Express.alters_headers _).
Qed.

Lemma send_invalid_status (req : Express.Request) (r : Express.Response) :
  Express.headersSent r = false ->
  (Express.sending_code req r < 100 \/ 999 < Express.sending_code req r)%Z ->
  Express.send req r
  = (Some (Express.ERR_HTTP_INVALID_STATUS_CODE
             (Express.sending_status req r)),
     Express.mkResponse (Express.sending_status req r)
       (Express.statusMessage r) false
       (S (Express.send_calls r)) (Express.sent r)).
Proof.
  intros Hsent Hcode.
  set (code := Express.sending_code req r) in *.
  assert (Hout : ((code <? 100) || (999 <? code))%Z = true).
  { apply orb_true_iff. rewrite !Z.ltb_lt. exact Hcode. }
  unfold Express.send, Express.end_, Express.writeHead. cbn.
  rewrite Hsent, andb_false_r.
  change (Express.int32 (Express.freshened req (Express.statusCode r)))
    with code.
  now rewrite Hout.
Qed.

Lemma send_in_range (req : Express.Request) (r : Express.Response) :
  Express.headersSent r = false ->
  (100 <= Express.sending_code req r <= 999)%Z ->
  Express.send req r
  = let status := VNumber (number_of_Z (Express.sending_code req r)) in
    let message := Express.sending_message req r in
    if Express.invalid_statusMessage message then
      (Some Express.ERR_INVALID_CHAR,
       Express.mkResponse status message false
         (S (Express.send_calls r)) (Express.sent r))
    else
      (None,
       Express.mkResponse status message true
         (S (Express.send_calls r))
         (Express.sent r ++ [Express.mkSent status message None])).
Proof.
  intros Hsent Hcode.
  set (code := Express.sending_code req r) in *.
  assert (Hin : ((code <? 100) || (999 <? code))%Z = false).
  { apply orb_false_iff. rewrite !Z.ltb_ge. lia. }
  unfold Express.send, Express.end_, Express.writeHead. cbn.
  rewrite Hsent, andb_false_r.
  change (Express.int32 (Express.freshened req (Express.statusCode r)))
    with code.
  now rewrite Hin.
Qed.

(** The ways a call of [send] can go. *)
Lemma send_cases (req : Express.Request) (r : Express.Response) :
  Express.headersSent r = true
  \/ (Express.headersSent r = false
      /\ (Express.sending_code req r < 100
          \/ 999 < Express.sending_code req r)%Z)
  \/ (Express.headersSent r = false
      /\ (100 <= Express.sending_code req r <= 999)%Z).
Proof.
  destruct (Express.headersSent r); [now left | right].
  destruct (Z_lt_dec (Express.sending_code req r) 100); [left; auto|].
  destruct (Z_lt_dec 999 (Express.sending_code req r)); [left; auto|].
  right. split; [reflexivity | lia].
Qed.

(** ** What the handler does *)

(** The status as [send] reads it, on a response whose head has not gone
    out: a fraction is cut off, 2^32 wraps around, a numeric text counts as
    its number, and what ends up outside 100..999 makes [send] throw. *)
Example status_read_by_send :
  let answer status :=
    (thrown production (mkError OtherError "boom" EmptyString status)
            login_request next world0,
     map Express.sent_status
       (transmitted world0
          (handled production (mkError OtherError "boom" EmptyString status)
                   login_request next world0))) in
  answer (VNumber 404.5) = (None, [VNumber 404])
  /\ answer (VNumber 4294967700) = (None, [VNumber 404])
  /\ answer (VString "404") = (None, [VNumber 404])
  /\ answer (VBool true)
     = (Some (Express.ERR_HTTP_INVALID_STATUS_CODE (VBool true)), [])
  /\ answer (VNumber 99)
     = (Some (Express.ERR_HTTP_INVALID_STATUS_CODE (VNumber 99)), []).
Proof.
  repeat split.
Qed.

(** A request that is fresh for a 2xx status is answered with 304. *)
Example fresh_request_answered_304 :
  transmitted world0
    (handled production (mkError OtherError "fine" EmptyString (VNumber 200))
             conditional_get next world0)
  = [Express.mkSent (VNumber 304) (VString "Not Modified") None].
Proof.
  reflexivity.
Qed.


(** The handler prepares the response, logs, and calls [send] once. *)
Lemma errorHandler_run (env : Env) (err : JSError) (req : Express.Request)
    (k : M unit) (w : World) :
  errorHandler env err req k w
  = (match fst (Express.send req (prepared err (res w))) with
     | None => Normal tt
     | Some e => Throw e
     end,
     mkWorld (snd (Express.send req (prepared err (res w))))
       (log w ++ (if instanceof_ClientError err && is_development_or_test env
                  then diagnostics err else []))
       (next_calls w)).
Proof.
  unfold errorHandler, prepared, answer_status, answer_statusMessage.
  destruct (instanceof_ClientError err); cbn [andb];
    [destruct (is_development_or_test env)|];
    cbn; unfold res_send, Express.status, Express.set_statusMessage; cbn;
    rewrite <- ?app_assoc, ?app_nil_r;
    now destruct (Express.send req _) as [[e | ] r].
Qed.

Lemma handled_run (env : Env) (err : JSError) (req : Express.Request)
    (k : M unit) (w : World) :
  handled env err req k w
  = mkWorld (snd (Express.send req (prepared err (res w))))
      (log w ++ (if instanceof_ClientError err && is_development_or_test env
                 then diagnostics err else []))
      (next_calls w).
Proof.
  unfold handled, exec. now rewrite errorHandler_run.
Qed.

Lemma thrown_run (env : Env) (err : JSError) (req : Express.Request)
    (k : M unit) (w : World) :
  thrown env err req k w = fst (Express.send req (prepared err (res w))).
Proof.
  unfold thrown. rewrite errorHandler_run. cbn.
  now destruct (fst (Express.send req _)).
Qed.

Lemma transmitted_app (w w' : World) (l : list Express.Sent) :
  Express.sent (res w') = Express.sent (res w) ++ l ->
  transmitted w w' = l.
Proof.
  unfold transmitted. intros ->.
  induction (Express.sent (res w)) as [ | s t IH]; cbn;
    [reflexivity | exact IH].
Qed.

Lemma last_sent_snoc (r : Express.Response) (l : list Express.Sent)
    (s : Express.Sent) :
  Express.sent r = l ++ [s] -> last_sent r = Some s.
Proof.
  unfold last_sent. intros ->. now rewrite rev_unit.
Qed.

(** A request is never fresh for the status 400. *)
Lemma sending_400 (req : Express.Request) (r : Express.Response) :
  Express.statusCode r = VNumber 400 ->
  Express.sending_status req r = VNumber 400
  /\ Express.sending_code req r = 400%Z.
Proof.
  intros Hr. unfold Express.sending_code, Express.sending_status.
  rewrite Hr. unfold Express.freshened, Express.req_fresh.
  assert (H : Express.cacheable_status (VNumber 400) = false) by reflexivity.
  rewrite H, andb_false_r. cbn [andb]. split; reflexivity.
Qed.

(** A request that is not fresh leaves the status as the handler set it. *)
Lemma sending_not_fresh (req : Express.Request) (r : Express.Response) :
  Express.req_fresh req (Express.statusCode r) = false ->
  Express.sending_status req r = Express.statusCode r
  /\ Express.sending_code req r = Express.int32 (Express.statusCode r).
Proof.
  intros Hr. unfold Express.sending_code, Express.sending_status,
                    Express.freshened.
  now rewrite Hr.
Qed.

(** The status code the response holds after [send] is truthy whenever the
    one it held before is. *)
Lemma send_statusCode_truthy (req : Express.Request) (r : Express.Response) :
  ToBoolean (Express.statusCode r) = true ->
  ToBoolean (Express.statusCode (snd (Express.send req r))) = true.
Proof.
  intros Hr.
  assert (Hs : ToBoolean (Express.sending_status req r) = true).
  { unfold Express.sending_status, Express.freshened.
    now destruct (Express.req_fresh req _). }
  destruct (send_cases req r) as [H | [[H Hc] | [H Hc]]].
  - now rewrite (send_headersSent req r H).
  - now rewrite (send_invalid_status req r H Hc).
  - rewrite (send_in_range req r H Hc). cbn zeta.
    destruct (Express.invalid_statusMessage _); cbn [snd Express.statusCode];
      now apply status_code_number.
Qed.

(** What the handler throws and transmits on a response whose head has not
    gone out, as a function of the error, of whether the request is fresh
    for the status, and of the status message the response holds. *)
Lemma outcome_unsent (env : Env) (err : JSError) (req : Express.Request)
    (k : M unit) (w : World) :
  Express.headersSent (res w) = false ->
  let status := Express.freshened req (answer_status err) in
  let code := Express.int32 status in
  let phrase := Express.reason (answer_statusMessage err (res w)) code in
  (thrown env err req k w, transmitted w (handled env err req k w))
  = if ((code <? 100) || (999 <? code))%Z then
      (Some (Express.ERR_HTTP_INVALID_STATUS_CODE status), [])
    else if Express.invalid_statusMessage phrase then
      (Some Express.ERR_INVALID_CHAR, [])
    else
      (None, [Express.mkSent (VNumber (number_of_Z code)) phrase None]).
Proof.
  intros Hsent status code phrase.
  rewrite thrown_run.
  set (r := prepared err (res w)).
  assert (Hr : Express.headersSent r = false) by exact Hsent.
  change status with (Express.sending_status req r).
  change code with (Express.sending_code req r) in *.
  change phrase with (Express.sending_message req r) in *.
  destruct ((Express.sending_code req r <? 100)
            || (999 <? Express.sending_code req r))%Z eqn:Hrange.
  - apply orb_true_iff in Hrange. rewrite !Z.ltb_lt in Hrange.
    assert (Hs := send_invalid_status req r Hr Hrange).
    rewrite Hs. cbn [fst]. f_equal.
    apply transmitted_app. rewrite handled_run. fold r. rewrite Hs. cbn.
    now rewrite app_nil_r.
  - apply orb_false_iff in Hrange. rewrite !Z.ltb_ge in Hrange.
    assert (Hs := send_in_range req r Hr ltac:(lia)). cbn zeta in Hs.
    rewrite Hs.
    destruct (Express.invalid_statusMessage _); cbn [fst]; f_equal;
      apply transmitted_app; rewrite handled_run; fold r; rewrite Hs; cbn;
      [now rewrite app_nil_r | reflexivity].
Qed.

(** For a [ClientError] the handler calls [send] on a response that holds
    the status 400 and the message of the error. *)
Lemma prepared_ClientError (err : JSError) (r : Express.Response) :
  instanceof_ClientError err = true ->
  prepared err r
  = Express.mkResponse (VNumber 400) (VString (message err))
      (Express.headersSent r) (Express.send_calls r) (Express.sent r).
Proof.
  intros Hc. unfold prepared, answer_status, answer_statusMessage.
  now rewrite Hc.
Qed.

Lemma prepared_OtherError (err : JSError) (r : Express.Response) :
  instanceof_ClientError err = false ->
  prepared err r
  = Express.mkResponse (JS.or (status err) (VNumber 400))
      (Express.statusMessage r)
      (Express.headersSent r) (Express.send_calls r) (Express.sent r).
Proof.
  intros Hc. unfold prepared, answer_status, answer_statusMessage.
  now rewrite Hc.
Qed.

(** The status message that goes out for a [ClientError]: its message, or
    the default for 400 where the message is empty. *)
Lemma reason_ClientError (text : string) :
  Express.reason (VString text) 400
  = VString (if String.eqb text EmptyString then "Bad Request" else text).
Proof.
  unfold Express.reason. cbn [ToBoolean].
  now destruct (String.eqb text EmptyString).
Qed.

Lemma reason_ClientError_legal (text : string) :
  Express.checkInvalidHeaderChar text = false ->
  Express.invalid_statusMessage (Express.reason (VString text) 400) = false.
Proof.
  intros Htext. rewrite reason_ClientError.
  now destruct (String.eqb text EmptyString).
Qed.

(** What [send] does for a [ClientError] on a response whose head has not
    gone out. *)
Lemma send_ClientError (req : Express.Request) (text : string)
    (calls : nat) (before : list Express.Sent) :
  let r := Express.mkResponse (VNumber 400) (VString text) false calls
             before in
  let phrase := Express.reason (VString text) 400 in
  Express.send req r
  = if Express.checkInvalidHeaderChar text then
      (Some Express.ERR_INVALID_CHAR,
       Express.mkResponse (VNumber 400) (VString text) false (S calls) before)
    else
      (None,
       Express.mkResponse (VNumber 400) phrase true (S calls)
         (before ++ [Express.mkSent (VNumber 400) phrase None])).
Proof.
  intros r phrase.
  destruct (sending_400 req r eq_refl) as [Hstatus Hcode].
  rewrite (send_in_range req r eq_refl) by (rewrite Hcode; lia).
  unfold Express.sending_message. rewrite Hcode. cbn zeta.
  change (number_of_Z 400) with 400%float.
  cbn [Express.statusMessage Express.send_calls Express.sent r].
  fold phrase.
  destruct (Express.checkInvalidHeaderChar text) eqn:Htext.
  - assert (Hphrase : phrase = VString text).
    { unfold phrase. rewrite reason_ClientError.
      destruct (String.eqb text EmptyString) eqn:E; [|reflexivity].
      apply String.eqb_eq in E. subst text. discriminate Htext. }
    rewrite Hphrase. cbn [Express.invalid_statusMessage]. now rewrite Htext.
  - unfold phrase. now rewrite (reason_ClientError_legal text Htext).
Qed.

(** C1, as stated, fails for a [ClientError] whose message holds a line
    feed: [send] throws on the status message, and nothing is transmitted;
    and for an empty message the status message that goes out is the default
    one. *)
Lemma clientError_illegal_message_throws :
  instanceof_ClientError two_lines = true
  /\ thrown production two_lines login_request next world0
     = Some Express.ERR_INVALID_CHAR
  /\ Express.sent (res (handled production two_lines login_request next
                               world0)) = []
  /\ last_sent (res (handled production
                       (mkError ClientError EmptyString "why" VUndefined)
                       login_request next world0))
     = Some (Express.mkSent (VNumber 400) (VString "Bad Request") None).
Proof.
  repeat split.
Qed.

(** C1, amended: a [ClientError] whose message has no character that is
    illegal in a status line, handled on a response whose head has not gone
    out, is answered with status 400, an empty body, and the error's message
    as the status message, or the default "Bad Request" where the message is
    empty; nothing of [internalError] reaches the response: changing it
    changes neither the response object nor what was sent. *)
Theorem clientError_response :
  forall env err req k w,
    instanceof_ClientError err = true ->
    Express.headersSent (res w) = false ->
    Express.checkInvalidHeaderChar (message err) = false ->
    let r := res (handled env err req k w) in
    let phrase :=
      VString (if String.eqb (message err) EmptyString
               then "Bad Request" else message err) in
    thrown env err req k w = None
    /\ Express.sent r
       = Express.sent (res w) ++ [Express.mkSent (VNumber 400) phrase None]
    /\ last_sent r = Some (Express.mkSent (VNumber 400) phrase None)
    /\ Express.statusCode r = VNumber 400
    /\ Express.statusMessage r = phrase
    /\ forall internal,
         res (handled env (with_internalError internal err) req k w) = r.
Proof.
  intros env err req k w Hc Hsent Htext r phrase. subst r.
  assert (Hrun : forall e : JSError,
            instanceof_ClientError e = true -> message e = message err ->
            Express.send req (prepared e (res w))
            = (None,
               Express.mkResponse (VNumber 400) phrase true
                 (S (Express.send_calls (res w)))
                 (Express.sent (res w)
                  ++ [Express.mkSent (VNumber 400) phrase None]))).
  { intros e He Hm. rewrite (prepared_ClientError e (res w) He), Hsent, Hm.
    rewrite send_ClientError, Htext. unfold phrase.
    now rewrite reason_ClientError. }
  rewrite thrown_run, handled_run, (Hrun err Hc eq_refl). cbn.
  repeat split.
  - eapply last_sent_snoc. reflexivity.
  - intros internal.
    now rewrite handled_run,
                (Hrun (with_internalError internal err) Hc eq_refl).
Qed.

Lemma clientError_response_witness :
  let r := res (handled development bad_form login_request next world0) in
  thrown development bad_form login_request next world0 = None
  /\ Express.sent r
     = [Express.mkSent (VNumber 400) (VString "Passwords do not match") None]
  /\ last_sent r
     = Some (Express.mkSent (VNumber 400) (VString "Passwords do not match")
               None)
  /\ Express.statusCode r = VNumber 400
  /\ Express.statusMessage r = VString "Passwords do not match"
  /\ forall internal,
       res (handled development (with_internalError internal bad_form)
                    login_request next world0) = r.
Proof.
  apply (clientError_response development bad_form login_request next world0);
    reflexivity.
Defined.

(** The default status messages have no illegal character. *)
Lemma default_statusMessage_legal (code : Z) :
  (100 <= code <= 999)%Z ->
  Express.checkInvalidHeaderChar (Express.default_statusMessage code) = false.
Proof.
  intros Hcode.
  assert (Hall :
    forallb (fun n => negb (Express.checkInvalidHeaderChar
                              (Express.default_statusMessage (Z.of_nat n))))
            (seq 100 900) = true) by (vm_compute; reflexivity).
  rewrite forallb_forall in Hall.
  specialize (Hall (Z.to_nat code)).
  rewrite Z2Nat.id in Hall by lia.
  apply negb_true_iff, Hall, in_seq. lia.
Qed.

Lemma reason_legal (v : value) (code : Z) :
  (100 <= code <= 999)%Z ->
  Express.invalid_statusMessage v = false ->
  Express.invalid_statusMessage (Express.reason v code) = false.
Proof.
  intros Hcode Hv. unfold Express.reason.
  destruct (ToBoolean v); [exact Hv|].
  now apply default_statusMessage_legal.
Qed.

(** What the handler does for an error that is not a [ClientError], on a
    response whose head has not gone out and whose status message is legal,
    when the request is not fresh for the status. *)
Lemma handled_OtherError (env : Env) (err : JSError) (req : Express.Request)
    (k : M unit) (w : World) :
  instanceof_ClientError err = false ->
  Express.headersSent (res w) = false ->
  Express.invalid_statusMessage (Express.statusMessage (res w)) = false ->
  Express.req_fresh req (JS.or (status err) (VNumber 400)) = false ->
  let code := Express.int32 (JS.or (status err) (VNumber 400)) in
  let phrase := Express.reason (Express.statusMessage (res w)) code in
  ((100 <= code <= 999)%Z ->
   thrown env err req k w = None
   /\ Express.sent (res (handled env err req k w))
      = Express.sent (res w)
        ++ [Express.mkSent (VNumber (number_of_Z code)) phrase None]
   /\ Express.statusCode (res (handled env err req k w))
      = VNumber (number_of_Z code))
  /\ ((code < 100 \/ 999 < code)%Z ->
      thrown env err req k w
      = Some (Express.ERR_HTTP_INVALID_STATUS_CODE
                (JS.or (status err) (VNumber 400)))
      /\ Express.sent (res (handled env err req k w)) = Express.sent (res w)).
Proof.
  intros Hc Hsent Hmsg Hfresh code phrase.
  rewrite thrown_run, handled_run, (prepared_OtherError err (res w) Hc).
  set (r := Express.mkResponse _ _ _ _ _).
  destruct (sending_not_fresh req r Hfresh) as [Hstatus Hcode].
  change (Express.int32 (Express.statusCode r)) with code in Hcode.
  split; intros Hrange.
  - rewrite (send_in_range req r Hsent) by now rewrite Hcode.
    unfold Express.sending_message. rewrite Hcode. cbn zeta.
    change (Express.statusMessage r) with (Express.statusMessage (res w)).
    fold phrase.
    assert (Hphrase : Express.invalid_statusMessage phrase = false)
      by apply (reason_legal _ code Hrange Hmsg).
    rewrite Hphrase. cbn. auto.
  - rewrite (send_invalid_status req r Hsent) by now rewrite Hcode.
    rewrite Hstatus. cbn. auto.
Qed.

(** C2, as stated, fails where the attached numeric status is 0: the status
    is present and numeric, yet the response goes out with 400. *)
Lemma otherError_zero_status_sent_as_400 :
  instanceof_ClientError zero_status = false
  /\ status zero_status = VNumber 0
  /\ last_sent (res (handled production zero_status login_request next world0))
     = Some (Express.mkSent (VNumber 400) (VString "Bad Request") None)
  /\ VNumber 400 <> status zero_status.
Proof.
  repeat split. exact VNumber_400_neq_0.
Qed.

(** C2, amended: an error that is not a [ClientError], handled on a response
    whose head has not gone out and whose status message is legal, is
    answered with the numeric status attached to it when that status is an
    integer from 100 to 999 and the request is not fresh for it; any other
    numeric status is truncated by [| 0] first, and when the result lies
    outside 100..999 [send] throws and nothing goes out; the answer is 400
    when no status is attached or the attached one is falsy; the body is
    empty in every case. *)
Theorem otherError_response :
  forall env err req k w,
    instanceof_ClientError err = false ->
    Express.headersSent (res w) = false ->
    Express.invalid_statusMessage (Express.statusMessage (res w)) = false ->
    let w' := handled env err req k w in
    let phrase := Express.reason (Express.statusMessage (res w)) in
    (forall code,
        (100 <= code <= 999)%Z ->
        status err = VNumber (number_of_Z code) ->
        Express.req_fresh req (status err) = false ->
        thrown env err req k w = None
        /\ transmitted w w' = [Express.mkSent (status err) (phrase code) None])
    /\ (forall n,
          status err = VNumber n ->
          ToBoolean (status err) = true ->
          Express.req_fresh req (status err) = false ->
          ((100 <= ToInt32 n <= 999)%Z ->
           thrown env err req k w = None
           /\ transmitted w w'
              = [Express.mkSent (VNumber (number_of_Z (ToInt32 n)))
                   (phrase (ToInt32 n)) None])
          /\ ((ToInt32 n < 100 \/ 999 < ToInt32 n)%Z ->
              thrown env err req k w
              = Some (Express.ERR_HTTP_INVALID_STATUS_CODE (status err))
              /\ transmitted w w' = []))
    /\ (ToBoolean (status err) = false ->
        thrown env err req k w = None
        /\ transmitted w w'
           = [Express.mkSent (VNumber 400) (phrase 400%Z) None]).
Proof.
  intros env err req k w Hc Hsent Hmsg w' phrase. subst w' phrase.
  assert (Hnum : forall n,
            status err = VNumber n -> ToBoolean (status err) = true ->
            Express.req_fresh req (status err) = false ->
            ((100 <= ToInt32 n <= 999)%Z ->
             thrown env err req k w = None
             /\ transmitted w (handled env err req k w)
                = [Express.mkSent (VNumber (number_of_Z (ToInt32 n)))
                     (Express.reason (Express.statusMessage (res w))
                        (ToInt32 n)) None])
            /\ ((ToInt32 n < 100 \/ 999 < ToInt32 n)%Z ->
                thrown env err req k w
                = Some (Express.ERR_HTTP_INVALID_STATUS_CODE (status err))
                /\ transmitted w (handled env err req k w) = [])).
  { intros n Hn Htruthy Hfresh.
    assert (Hor : JS.or (status err) (VNumber 400) = VNumber n)
      by (unfold JS.or; now rewrite Htruthy).
    rewrite Hn in Hfresh.
    destruct (handled_OtherError env err req k w Hc Hsent Hmsg) as [Hin Hout];
      [now rewrite Hor|].
    rewrite Hor in Hin, Hout. rewrite Hn.
    change (Express.int32 (VNumber n)) with (ToInt32 n) in Hin, Hout.
    split; intros Hrange.
    - destruct (Hin Hrange) as (Ht & Hs & _). split; [exact Ht|].
      now apply transmitted_app.
    - destruct (Hout Hrange) as (Ht & Hs). split; [exact Ht|].
      apply transmitted_app. now rewrite app_nil_r. }
  split; [|split].
  - intros code Hcode Hstatus Hfresh.
    destruct (status_code_number code Hcode) as [Hint Htruthy].
    rewrite <- Hstatus in Htruthy.
    destruct (Hnum _ Hstatus Htruthy Hfresh) as [Hin _].
    rewrite Hint in Hin. rewrite Hstatus. now apply Hin.
  - exact Hnum.
  - intros Hfalsy.
    assert (Hor : JS.or (status err) (VNumber 400) = VNumber 400)
      by (unfold JS.or; now rewrite Hfalsy).
    destruct (handled_OtherError env err req k w Hc Hsent Hmsg) as [Hin _].
    { rewrite Hor. unfold Express.req_fresh.
      assert (H : Express.cacheable_status (VNumber 400) = false)
        by reflexivity.
      now rewrite H, andb_false_r. }
    rewrite Hor in Hin.
    change (Express.int32 (VNumber 400)) with 400%Z in Hin.
    destruct Hin as (Ht & Hs & _); [lia|]. split; [exact Ht|].
    now apply transmitted_app.
Qed.

Lemma otherError_response_witness :
  thrown production not_found login_request next world0 = None
  /\ transmitted world0
       (handled production not_found login_request next world0)
     = [Express.mkSent (VNumber 404) (VString "Not Found") None].
Proof.
  destruct (otherError_response production not_found login_request next
              world0 eq_refl eq_refl eq_refl) as [Hcode _].
  apply (Hcode 404%Z); [lia | reflexivity | reflexivity].
Defined.

(** Every call of [send] is counted, and transmits one response or none. *)
Lemma send_effect (req : Express.Request) (r : Express.Response) :
  Express.send_calls (snd (Express.send req r)) = S (Express.send_calls r)
  /\ (Express.headersSent r = false ->
      fst (Express.send req r) = None ->
      exists s, Express.sent (snd (Express.send req r)) = Express.sent r ++ [s])
  /\ (Express.headersSent r = true \/ fst (Express.send req r) <> None ->
      Express.sent (snd (Express.send req r)) = Express.sent r).
Proof.
  destruct (send_cases req r) as [H | [[H Hc] | [H Hc]]].
  - rewrite (send_headersSent req r H). cbn.
    split; [reflexivity | split; [congruence | reflexivity]].
  - rewrite (send_invalid_status req r H Hc). cbn.
    split; [reflexivity | split; [discriminate | reflexivity]].
  - rewrite (send_in_range req r H Hc). cbn zeta.
    destruct (Express.invalid_statusMessage _); cbn.
    + split; [reflexivity | split; [discriminate | reflexivity]].
    + split; [reflexivity | split; [eauto|]].
      intros [Hs | Hn]; [congruence | now elim Hn].
Qed.

(** C6, as stated, fails for an error with the status 1000: [send] is
    called, throws on the status, and no response goes out. *)
Lemma otherError_status_1000_sends_nothing :
  instanceof_ClientError status_1000 = false
  /\ thrown production status_1000 login_request next world0
     = Some (Express.ERR_HTTP_INVALID_STATUS_CODE (VNumber 1000))
  /\ Express.sent (res (handled production status_1000 login_request next
                               world0)) = []
  /\ Express.send_calls (res (handled production status_1000 login_request
                                      next world0)) = 1.
Proof.
  repeat split.
Qed.

(** C6, amended: on every path the handler calls [send] exactly once and
    never runs the continuation [next], so nothing is tried a second time;
    that one call transmits exactly one response when the head of the
    response has not gone out and [send] does not throw, and none when the
    head has gone out already or [send] throws; on a response whose head has
    not gone out [send] throws exactly when the status it reads lies outside
    100..999 or the status message has an illegal character. *)
Theorem errorHandler_sends_once :
  forall env err req k w,
    let w' := handled env err req k w in
    Express.send_calls (res w') = S (Express.send_calls (res w))
    /\ handled env err req k w = handled env err req (ret tt) w
    /\ next_calls (handled env err req next w) = next_calls w
    /\ (Express.headersSent (res w) = false ->
        thrown env err req k w = None ->
        exists s, Express.sent (res w') = Express.sent (res w) ++ [s])
    /\ (Express.headersSent (res w) = true
        \/ thrown env err req k w <> None ->
        Express.sent (res w') = Express.sent (res w))
    /\ (Express.headersSent (res w) = false ->
        let code := Express.int32 (Express.freshened req (answer_status err)) in
        thrown env err req k w = None
        <-> (100 <= code <= 999)%Z
            /\ Express.invalid_statusMessage
                 (Express.reason (answer_statusMessage err (res w)) code)
               = false).
Proof.
  intros env err req k w w'. subst w'.
  split; [|split; [|split; [|split; [|split]]]].
  - rewrite handled_run. cbn [res].
    apply (send_effect req (prepared err (res w))).
  - now rewrite !handled_run.
  - now rewrite handled_run.
  - rewrite thrown_run, handled_run. cbn [res].
    apply (send_effect req (prepared err (res w))).
  - rewrite thrown_run, handled_run. cbn [res].
    apply (send_effect req (prepared err (res w))).
  - intros Hsent code.
    assert (O := outcome_unsent env err req k w Hsent). cbn zeta in O.
    fold code in O.
    destruct (Z.ltb_spec code 100); cbn [orb] in O.
    { injection O as -> _. split; [discriminate | lia]. }
    destruct (Z.ltb_spec 999 code); cbn [orb] in O.
    { injection O as -> _. split; [discriminate | lia]. }
    destruct (Express.invalid_statusMessage _); injection O as -> _.
    + split; [discriminate | now intros [_ H']].
    + split; [intros _; split; [lia | reflexivity] | reflexivity].
Qed.

Lemma errorHandler_sends_once_witness :
  (exists s,
     Express.sent (res (handled production not_found login_request next
                                world0)) = [s])
  /\ Express.sent (res (handled production not_found login_request next
                                world_sent))
     = Express.sent (res world_sent).
Proof.
  split.
  - apply (errorHandler_sends_once production not_found login_request next
             world0); reflexivity.
  - apply (errorHandler_sends_once production not_found login_request next
             world_sent).
    left; reflexivity.
Defined.

(** C7: for a [ClientError] the handler appends the client message and the
    internal message to the diagnostic log exactly when [NODE_ENV] is
    ['development'] or ['test']; in every other environment the log stays as
    it was. *)
Theorem clientError_logging :
  forall env err req k w,
    instanceof_ClientError err = true ->
    let dev_or_test :=
      NODE_ENV env = VString "development" \/ NODE_ENV env = VString "test" in
    let w' := handled env err req k w in
    (dev_or_test <-> log w' = log w ++ diagnostics err)
    /\ (~ dev_or_test -> log w' = log w).
Proof.
  intros env err req k w Hc dev_or_test w'. subst dev_or_test w'.
  rewrite <- is_development_or_test_spec.
  rewrite handled_run, Hc. cbn.
  destruct (is_development_or_test env).
  - split; [tauto | intros H; now elim H].
  - rewrite app_nil_r. split; [|reflexivity].
    split; [discriminate|].
    intros H. apply (f_equal (@length string)) in H.
    rewrite length_app in H. cbn in H. lia.
Qed.

Lemma clientError_logging_witness :
  log (handled development bad_form login_request next world0)
  = ["Client Message: Passwords do not match";
     "Server Message: confirmPassword differs"]
  /\ log (handled production bad_form login_request next world0) = [].
Proof.
  split.
  - apply (clientError_logging development bad_form login_request next
             world0 eq_refl).
    left; reflexivity.
  - apply (clientError_logging production bad_form login_request next
             world0 eq_refl).
    intros [H | H]; discriminate H.
Defined.






Lemma req_fresh_not_cacheable (req : Express.Request) (status : value) :
  Express.cacheable_status status = false ->
  Express.req_fresh req status = false.
Proof.
  intros H. unfold Express.req_fresh. now rewrite H, andb_false_r.
Qed.

(** C10, as stated, fails for an error that is not a [ClientError]: the
    handler does not touch the status message of the response, so the same
    error in the same environment goes out with the default status message
    on a fresh response and with the message an earlier middleware has set
    on another. *)
Lemma response_statusMessage_not_determined :
  instanceof_ClientError not_found = false
  /\ option_map Express.sent_statusMessage
       (last_sent (res (handled production not_found login_request next
                                world0)))
     = Some (VString "Not Found")
  /\ option_map Express.sent_statusMessage
       (last_sent (res (handled production not_found login_request next
                                world_with_statusMessage)))
     = Some (VString "I'm a teapot")
  /\ last_sent (res (handled production not_found login_request next world0))
     <> last_sent (res (handled production not_found login_request next
                                world_with_statusMessage)).
Proof.
  repeat split. cbv. discriminate.
Qed.

(** C10, amended: for two calls with the same error and the same
    environment, on responses whose heads have not gone out, what the
    handler throws and transmits (status, status message and body) is the
    same whatever the request and the continuation, when the error is a
    [ClientError] or the two responses hold the same status message, and
    when, for a status of 2xx or 304, the two requests are equally fresh;
    and whenever neither call throws, the status and the body are the same
    even where the status messages differ. *)
Theorem response_determined_by_error :
  forall env err req1 req2 k1 k2 w1 w2,
    Express.headersSent (res w1) = false ->
    Express.headersSent (res w2) = false ->
    (Express.cacheable_status (answer_status err) = true ->
     Express.req_fresh req1 (answer_status err)
     = Express.req_fresh req2 (answer_status err)) ->
    let w1' := handled env err req1 k1 w1 in
    let w2' := handled env err req2 k2 w2 in
    (instanceof_ClientError err = true
     \/ Express.statusMessage (res w1) = Express.statusMessage (res w2) ->
     thrown env err req1 k1 w1 = thrown env err req2 k2 w2
     /\ transmitted w1 w1' = transmitted w2 w2')
    /\ (thrown env err req1 k1 w1 = None ->
        thrown env err req2 k2 w2 = None ->
        map Express.sent_status (transmitted w1 w1')
        = map Express.sent_status (transmitted w2 w2')
        /\ map Express.sent_body (transmitted w1 w1')
           = map Express.sent_body (transmitted w2 w2')).
Proof.
  intros env err req1 req2 k1 k2 w1 w2 H1 H2 Hfresh w1' w2'. subst w1' w2'.
  assert (Hstatus : Express.freshened req1 (answer_status err)
                    = Express.freshened req2 (answer_status err)).
  { unfold Express.freshened.
    destruct (Express.cacheable_status (answer_status err)) eqn:Hc.
    - now rewrite (Hfresh eq_refl).
    - now rewrite !req_fresh_not_cacheable. }
  assert (O1 := outcome_unsent env err req1 k1 w1 H1).
  assert (O2 := outcome_unsent env err req2 k2 w2 H2).
  cbn zeta in O1, O2. rewrite Hstatus in O1.
  set (code := Express.int32 _) in *.
  split.
  - intros Hmsg.
    assert (Hsame : answer_statusMessage err (res w1)
                    = answer_statusMessage err (res w2)).
    { unfold answer_statusMessage.
      destruct Hmsg as [-> | ->]; [reflexivity|].
      now destruct (instanceof_ClientError err). }
    rewrite Hsame, <- O2 in O1. now injection O1.
  - intros T1 T2. rewrite T1 in O1. rewrite T2 in O2.
    destruct ((code <? 100) || (999 <? code))%Z; [discriminate O1|].
    destruct (Express.invalid_statusMessage _); [discriminate O1|].
    destruct (Express.invalid_statusMessage _); [discriminate O2|].
    injection O1 as ->. injection O2 as ->. split; reflexivity.
Qed.

Lemma response_determined_by_error_witness :
  thrown production not_found login_request next world0
  = thrown production not_found register_request (ret tt)
           (mkWorld Express.fresh ["earlier line"] 3)
  /\ transmitted world0
       (handled production not_found login_request next world0)
     = transmitted (mkWorld Express.fresh ["earlier line"] 3)
         (handled production not_found register_request (ret tt)
                  (mkWorld Express.fresh ["earlier line"] 3)).
Proof.
  destruct (response_determined_by_error
              production not_found login_request register_request
              next (ret tt) world0
              (mkWorld Express.fresh ["earlier line"] 3)
              eq_refl eq_refl (fun _ => eq_refl)) as [Hsame _].
  apply Hsame. right; reflexivity.
Defined.

(** * Properties of the auth handler *)

Module AuthFacts.

Import Auth.

Local Open Scope string_scope.

(** ** Strings *)

Lemma append_assoc (a b c : string) : (a ++ b) ++ c = a ++ (b ++ c).
Proof.
  induction a as [ | x a IH]; cbn; [reflexivity | now rewrite IH].
Qed.

Lemma eqb_append_char (s : string) (c : ascii) :
  String.eqb (s ++ String c EmptyString) s = false.
Proof.
  induction s as [ | x s IH]; cbn; [reflexivity|].
  now rewrite Ascii.eqb_refl.
Qed.

Lemma free_append (sep : ascii) (a b : string) :
  free sep (a ++ b) = free sep a && free sep b.
Proof.
  induction a as [ | x a IH]; cbn; [reflexivity|].
  now rewrite IH, andb_assoc.
Qed.

Lemma cut_append (sep : ascii) (p r : string) :
  free sep p = true -> cut sep (p ++ String sep r) = Some (p, r).
Proof.
  induction p as [ | x p IH]; cbn.
  - now rewrite Ascii.eqb_refl.
  - intros [Hx Hp]%andb_true_iff. apply negb_true_iff in Hx.
    now rewrite Hx, (IH Hp).
Qed.

Lemma free_uint (sep : ascii) (d : Decimal.uint) :
  sep = "."%char \/ sep = ","%char ->
  free sep (NilEmpty.string_of_uint d) = true.
Proof.
  intros [-> | ->]; induction d; cbn; auto.
Qed.

Lemma number_digits (n : N) : number (digits n) = Some n.
Proof.
  unfold number, digits. rewrite NilEmpty.usu. cbn.
  now rewrite DecimalN.Unsigned.of_to.
Qed.

(** ** Claims survive the trip through a token *)

Lemma free_encode (c : Claims) : free "." (encode c) = true.
Proof.
  unfold encode, digits. rewrite !free_append.
  rewrite !free_uint by auto. reflexivity.
Qed.

Lemma decode_encode (c : Claims) : decode (encode c) = Some c.
Proof.
  unfold decode, encode. cbn [append].
  rewrite cut_append by (apply free_uint; auto).
  rewrite !number_digits. now destruct c.
Qed.

Section Service.

Variable hash : string -> string.
Variable mac : string -> string -> string.
Variable session : N.

Lemma sign_Ok (env : Env) (now id expiresIn : N) (token : string) :
  sign mac env now id expiresIn = Ok token ->
  exists secret,
    JWT_SECRET env = Some secret
    /\ token = encode (mkClaims id (now + expiresIn)) ++ "."
               ++ mac secret (encode (mkClaims id (now + expiresIn))).
Proof.
  unfold sign. destruct (JWT_SECRET env) as [secret | ]; [|discriminate].
  intros [= <-]. now exists secret.
Qed.

(** A token just signed is accepted until it expires. *)
Lemma verify_signed (env : Env) (now id expiresIn later : N) (token : string) :
  sign mac env now id expiresIn = Ok token ->
  (later < now + expiresIn)%N ->
  verify mac env later token = Some (mkClaims id (now + expiresIn)).
Proof.
  intros (secret & Hs & ->)%sign_Ok Hlater.
  unfold verify. rewrite Hs. cbn [append].
  rewrite cut_append by apply free_encode.
  rewrite String.eqb_refl, decode_encode. cbn [exp].
  apply N.ltb_lt in Hlater. now rewrite Hlater.
Qed.

(** A token with one more character at its end is not. *)
Lemma verify_tampered (env : Env) (now id expiresIn later : N)
    (token : string) (c : ascii) :
  sign mac env now id expiresIn = Ok token ->
  verify mac env later (token ++ String c EmptyString) = None.
Proof.
  intros (secret & Hs & ->)%sign_Ok.
  unfold verify. rewrite Hs, !append_assoc. cbn [append].
  rewrite cut_append by apply free_encode.
  now rewrite eqb_append_char.
Qed.

End Service.

End AuthFacts.

(** C3: a login with the username or the password missing is answered with
    400; with a known username and a wrong password, with 401; with correct
    credentials and a configured signing secret, with 200 and a non-empty
    token; with correct credentials and no signing secret at sign time, with
    500. *)
Theorem login_contract :
  forall hash mac session env now users name pass,
    let reply := Auth.post_login hash mac session env now users name pass in
    (name = None \/ pass = None -> Auth.status reply = 400%N)
    /\ (forall n p user,
          name = Some n -> pass = Some p ->
          Auth.findByUsername n users = Some user ->
          hash p <> Auth.password user ->
          Auth.status reply = 401%N)
    /\ (forall n p user secret,
          name = Some n -> pass = Some p ->
          Auth.findByUsername n users = Some user ->
          hash p = Auth.password user ->
          JWT_SECRET env = Some secret ->
          Auth.status reply = 200%N
          /\ exists token, Auth.jwt reply = Some token /\ token <> EmptyString)
    /\ (forall n p user,
          name = Some n -> pass = Some p ->
          Auth.findByUsername n users = Some user ->
          hash p = Auth.password user ->
          JWT_SECRET env = None ->
          Auth.status reply = 500%N).
Proof.
  intros hash mac session env now users name pass reply. subst reply.
  unfold Auth.post_login, Auth.login.
  split; [|split; [|split]].
  - intros [-> | ->]; [reflexivity | now destruct name].
  - intros n p user -> -> -> Hp.
    apply String.eqb_neq in Hp. now rewrite Hp.
  - intros n p user secret -> -> -> Hp Hs.
    rewrite Hp, String.eqb_refl. unfold Auth.sign. rewrite Hs. cbn.
    split; [reflexivity|].
    eexists. split; [reflexivity|].
    destruct (Auth.encode _); discriminate.
  - intros n p user -> -> -> Hp Hs.
    rewrite Hp, String.eqb_refl. unfold Auth.sign. now rewrite Hs.
Qed.

Lemma login_contract_witness :
  Auth.status
    (Auth.post_login sample_hash sample_mac 3600 production 0 [mockUser]
       (Some "__test__") None) = 400%N
  /\ Auth.status
       (Auth.post_login sample_hash sample_mac 3600 production 0 [mockUser]
          (Some "__test__") (Some "wrongpassword")) = 401%N
  /\ (Auth.status
        (Auth.post_login sample_hash sample_mac 3600 production 0 [mockUser]
           (Some "__test__") (Some "1")) = 200%N
      /\ exists token,
           Auth.jwt
             (Auth.post_login sample_hash sample_mac 3600 production 0
                [mockUser] (Some "__test__") (Some "1")) = Some token
           /\ token <> EmptyString)
  /\ Auth.status
       (Auth.post_login sample_hash sample_mac 3600 unconfigured 0 [mockUser]
          (Some "__test__") (Some "1")) = 500%N.
Proof.
  split; [|split; [|split]].
  - apply (login_contract sample_hash sample_mac 3600 production 0 [mockUser]
             (Some "__test__") None).
    right; reflexivity.
  - apply (login_contract sample_hash sample_mac 3600 production 0 [mockUser]
             (Some "__test__") (Some "wrongpassword"))
      with (n := "__test__") (p := "wrongpassword") (user := mockUser);
      try reflexivity.
    cbv. discriminate.
  - apply (login_contract sample_hash sample_mac 3600 production 0 [mockUser]
             (Some "__test__") (Some "1"))
      with (n := "__test__") (p := "1") (user := mockUser)
           (secret := "s3cret");
      reflexivity.
  - apply (login_contract sample_hash sample_mac 3600 unconfigured 0
             [mockUser] (Some "__test__") (Some "1"))
      with (n := "__test__") (p := "1") (user := mockUser);
      reflexivity.
Defined.

(** C4: a token produced by signing, with any one character appended, is
    answered with 401 by authenticate. *)
Theorem tampered_token_unauthorized :
  forall mac env now id expiresIn token c later,
    Auth.sign mac env now id expiresIn = Auth.Ok token ->
    Auth.status
      (Auth.post_authenticate mac env later (token ++ String c EmptyString))
    = 401%N.
Proof.
  intros mac env now id expiresIn token c later Hsign.
  unfold Auth.post_authenticate, Auth.authenticate.
  now rewrite (AuthFacts.verify_tampered mac env now id expiresIn later
                 token c Hsign).
Qed.

Lemma tampered_token_unauthorized_witness :
  Auth.status
    (Auth.post_authenticate sample_mac production 10 (sample_token ++ "$"))
  = 401%N.
Proof.
  apply (tampered_token_unauthorized sample_mac production 0 1 3600
           sample_token "$" 10).
  reflexivity.
Defined.

(** The untampered token is answered with 200 as long as it has not
    expired, so the rejection above is the suffix's doing. *)
Lemma signed_token_authorized :
  forall mac env now id expiresIn token later,
    Auth.sign mac env now id expiresIn = Auth.Ok token ->
    (later < now + expiresIn)%N ->
    Auth.status (Auth.post_authenticate mac env later token) = 200%N.
Proof.
  intros mac env now id expiresIn token later Hsign Hlater.
  unfold Auth.post_authenticate, Auth.authenticate.
  now rewrite (AuthFacts.verify_signed mac env now id expiresIn later
                 token Hsign Hlater).
Qed.

Example sample_token_authorized :
  sample_token = "1,3600.17294"
  /\ Auth.post_authenticate sample_mac production 10 sample_token
     = Auth.mkReply 200 None.
Proof.
  split; reflexivity.
Qed.

(** A store never changes on a failed registration. *)
Lemma register_Fail (hash : string -> string) (users : Auth.Store)
    (f : Auth.Form) (e : Auth.AuthError) :
  fst (Auth.register hash users f) = Auth.Fail e ->
  snd (Auth.register hash users f) = users.
Proof.
  unfold Auth.register.
  destruct (negb _); [reflexivity|].
  destruct (existsb _ _); [reflexivity | discriminate].
Qed.

(** C5: registering a username and email pair that a record of the store
    already has is answered with 400 and leaves the store as it was. *)
Theorem register_existing_user :
  forall hash users f,
    (exists u, In u users
               /\ Auth.username u = Auth.form_username f
               /\ Auth.email u = Auth.form_email f) ->
    Auth.status (fst (Auth.post_register hash users f)) = 400%N
    /\ snd (Auth.post_register hash users f) = users.
Proof.
  intros hash users f (u & Hin & Hname & Hmail).
  unfold Auth.post_register, Auth.register.
  destruct (negb _); [now split|].
  assert (Htaken : existsb (Auth.taken f) users = true).
  { apply existsb_exists. exists u. split; [exact Hin|].
    unfold Auth.taken. now rewrite Hname, String.eqb_refl. }
  now rewrite Htaken.
Qed.

Lemma register_existing_user_witness :
  Auth.status
    (fst (Auth.post_register sample_hash [mockUser]
            (Auth.mkForm "__test__" "__test__@__test__.com" "1" "1")))
  = 400%N
  /\ snd (Auth.post_register sample_hash [mockUser]
            (Auth.mkForm "__test__" "__test__@__test__.com" "1" "1"))
     = [mockUser].
Proof.
  apply (register_existing_user sample_hash [mockUser]
           (Auth.mkForm "__test__" "__test__@__test__.com" "1" "1")).
  exists mockUser. repeat split. left; reflexivity.
Defined.

(** A pair the store does not have is registered: one record more. *)
Example register_new_user :
  Auth.post_register sample_hash [mockUser]
    (Auth.mkForm "asdf" "blah@blah.com" "password" "password")
  = (Auth.mkReply 200 None,
     [mockUser;
      Auth.mkUser 2 "asdf" "blah@blah.com" (sample_hash "password") ["user"]]).
Proof.
  reflexivity.
Qed.

(** * Further properties of [errorHandler] *)

Lemma answer_status_truthy (err : JSError) :
  ToBoolean (answer_status err) = true.
Proof.
  unfold answer_status. destruct (instanceof_ClientError err);
    [reflexivity|].
  rewrite ToBoolean_or. apply orb_true_r.
Qed.

(** X1: the status the handler leaves on the response and the status it
    transmits are never falsy: whatever status the error carries (none, 0,
    NaN, [null], ...), the response holds a truthy status code when the
    handler is done, thrown or not, and a response that goes out carries an
    integer status from 100 to 999, which is the status code the response
    holds afterwards. *)
Theorem errorHandler_status_truthy :
  forall env err req k w,
    ToBoolean (Express.statusCode (res (handled env err req k w))) = true
    /\ forall s,
         In s (transmitted w (handled env err req k w)) ->
         ToBoolean (Express.sent_status s) = true
         /\ Express.statusCode (res (handled env err req k w))
            = Express.sent_status s
         /\ exists code,
              (100 <= code <= 999)%Z
              /\ Express.sent_status s = VNumber (number_of_Z code).
Proof.
  intros env err req k w. rewrite handled_run. cbn [res].
  set (r := prepared err (res w)).
  split.
  - apply send_statusCode_truthy, answer_status_truthy.
  - intros s.
    destruct (send_cases req r) as [H | [[H Hc] | [H Hc]]].
    + rewrite (transmitted_app w _ []);
        [intros [] | cbn; now rewrite (send_headersSent req r H), app_nil_r].
    + rewrite (transmitted_app w _ []);
        [intros []
        | cbn; now rewrite (send_invalid_status req r H Hc), app_nil_r].
    + rewrite (send_in_range req r H Hc). cbn zeta.
      destruct (Express.invalid_statusMessage _).
      * rewrite (transmitted_app w _ []);
          [intros [] | cbn; now rewrite app_nil_r].
      * erewrite transmitted_app; [|reflexivity].
        intros [<- | []]. cbn.
        split; [now apply status_code_number | split; [reflexivity|]].
        now exists (Express.sending_code req r).
Qed.

(** X2: the environment gates the logging only: the response object, with
    everything sent on it, is the same in every environment, whether
    [NODE_ENV] or [JWT_SECRET] are set or not. *)
Theorem response_independent_of_env :
  forall env1 env2 err req k w,
    res (handled env1 err req k w) = res (handled env2 err req k w)
    /\ next_calls (handled env1 err req k w)
       = next_calls (handled env2 err req k w).
Proof.
  intros env1 env2 err req k w. now rewrite !handled_run.
Qed.

(** X3: an error that is not a [ClientError] is never logged, not even in
    development or test, and its message never reaches the response: the
    log stays as it was, a status message the response holds is left alone,
    and the message and the internal message of the error make no difference
    to what the handler does. *)
Theorem otherError_not_logged :
  forall env err req k w,
    instanceof_ClientError err = false ->
    log (handled env err req k w) = log w
    /\ (ToBoolean (Express.statusMessage (res w)) = true ->
        Express.statusMessage (res (handled env err req k w))
        = Express.statusMessage (res w))
    /\ forall text internal,
         handled env (mkError OtherError text internal (status err)) req k w
         = handled env err req k w
         /\ thrown env (mkError OtherError text internal (status err))
                   req k w
            = thrown env err req k w.
Proof.
  intros env err req k w Hc.
  assert (Hsame : forall text internal,
            prepared (mkError OtherError text internal (status err)) (res w)
            = prepared err (res w)).
  { intros text internal.
    now rewrite (prepared_OtherError err (res w) Hc),
                (prepared_OtherError
                   (mkError OtherError text internal (status err))
                   (res w) eq_refl). }
  split; [|split].
  - rewrite handled_run, Hc. cbn. apply app_nil_r.
  - intros Htruthy. rewrite handled_run. cbn [res].
    set (r := prepared err (res w)).
    assert (Hr : Express.statusMessage r = Express.statusMessage (res w)).
    { unfold r. now rewrite (prepared_OtherError err (res w) Hc). }
    rewrite <- Hr in *.
    destruct (send_cases req r) as [H | [[H Hr'] | [H Hr']]].
    + now rewrite (send_headersSent req r H).
    + now rewrite (send_invalid_status req r H Hr').
    + rewrite (send_in_range req r H Hr'). cbn zeta.
      unfold Express.sending_message, Express.reason. rewrite Htruthy.
      now destruct (Express.invalid_statusMessage _).
  - intros text internal. split.
    + now rewrite !handled_run, Hsame, Hc.
    + now rewrite !thrown_run, Hsame.
Qed.

Lemma otherError_not_logged_witness :
  log (handled development not_found login_request next
               world_with_statusMessage) = []
  /\ Express.statusMessage
       (res (handled development not_found login_request next
                     world_with_statusMessage))
     = VString "I'm a teapot".
Proof.
  destruct (otherError_not_logged development not_found login_request next
              world_with_statusMessage eq_refl) as (Hlog & Hmsg & _).
  split; [exact Hlog | apply Hmsg; reflexivity].
Defined.

(** X4: what a [ClientError] holds as [internalError] can be told from the
    outcome of the handler in development and test only: two errors that
    differ in nothing but [internalError] leave the same response, log and
    all, exactly when the environment is neither of the two. *)
Theorem internalError_observable_iff :
  forall env err req k w internal1 internal2,
    instanceof_ClientError err = true ->
    handled env (with_internalError internal1 err) req k w
    = handled env (with_internalError internal2 err) req k w
    <-> internal1 = internal2
        \/ ~ (NODE_ENV env = VString "development"
              \/ NODE_ENV env = VString "test").
Proof.
  intros env err req k w internal1 internal2 Hc.
  rewrite <- is_development_or_test_spec.
  assert (Hrun : forall internal,
            handled env (with_internalError internal err) req k w
            = mkWorld (snd (Express.send req (prepared err (res w))))
                (log w ++ (if is_development_or_test env
                           then diagnostics (with_internalError internal err)
                           else []))
                (next_calls w)).
  { intros internal. rewrite handled_run.
    change (instanceof_ClientError (with_internalError internal err))
      with (instanceof_ClientError err).
    now rewrite Hc. }
  rewrite !Hrun.
  destruct (is_development_or_test env).
  - split.
    + intros H. left.
      apply (f_equal log) in H. cbn [log] in H.
      apply app_inv_head in H. unfold diagnostics in H.
      cbn [internalError with_internalError] in H.
      now injection H.
    + intros [-> | H]; [reflexivity | now elim H].
  - split; [intros _; right; discriminate | reflexivity].
Qed.

Lemma internalError_observable_iff_witness :
  handled production (with_internalError "stack trace" bad_form)
          login_request next world0
  = handled production (with_internalError "nothing" bad_form)
            login_request next world0.
Proof.
  apply (internalError_observable_iff production bad_form login_request next
           world0 "stack trace" "nothing" eq_refl).
  right. intros [H | H]; discriminate H.
Defined.

(** X5: a status code set on the response before the handler runs is always
    overridden, and for a [ClientError] so is a status message set before:
    the outcome does not depend on either. *)
Theorem earlier_status_overridden :
  forall env err req k w code,
    handled env err req k
      (mkWorld (Express.status code (res w)) (log w) (next_calls w))
    = handled env err req k w
    /\ (instanceof_ClientError err = true ->
        forall text,
          handled env err req k
            (mkWorld (Express.set_statusMessage text (res w))
                     (log w) (next_calls w))
          = handled env err req k w).
Proof.
  intros env err req k w code. split.
  - now rewrite !handled_run.
  - intros Hc text. rewrite !handled_run. cbn [res log next_calls].
    now rewrite !(prepared_ClientError err _ Hc).
Qed.

Lemma earlier_status_overridden_witness :
  handled production bad_form login_request next world_with_statusMessage
  = handled production bad_form login_request next world0.
Proof.
  destruct (earlier_status_overridden production bad_form login_request next
              world0 (VNumber 500)) as [_ H].
  apply (H eq_refl (VString "I'm a teapot")).
Defined.

(** * Further properties of the auth handler *)

(** A registration that succeeds: the passwords agree, no record has the
    username or the email, and the store gains the new record at its end. *)
Lemma register_Ok (hash : string -> string) (users users' : Auth.Store)
    (f : Auth.Form) (user : Auth.User) :
  Auth.register hash users f = (Auth.Ok user, users') ->
  Auth.form_password f = Auth.form_confirmPassword f
  /\ existsb (Auth.taken f) users = false
  /\ user = Auth.mkUser (Auth.fresh_id users) (Auth.form_username f)
              (Auth.form_email f) (hash (Auth.form_password f)) ["user"]
  /\ users' = users ++ [user].
Proof.
  unfold Auth.register.
  destruct (String.eqb _ _) eqn:Hpw; cbn [negb]; [|discriminate].
  destruct (existsb _ _) eqn:Htaken; [discriminate|].
  intros [= <- <-]. apply String.eqb_eq in Hpw. now repeat split.
Qed.

Lemma not_taken (f : Auth.Form) (users : Auth.Store) :
  existsb (Auth.taken f) users = false ->
  forall u, In u users ->
    Auth.username u <> Auth.form_username f
    /\ Auth.email u <> Auth.form_email f.
Proof.
  intros Hnone u Hin.
  assert (Hu : Auth.taken f u = false).
  { destruct (Auth.taken f u) eqn:E; [|reflexivity].
    rewrite <- Hnone. symmetry. apply existsb_exists. now exists u. }
  unfold Auth.taken in Hu. apply orb_false_iff in Hu as [Hn Hm].
  now rewrite <- !String.eqb_neq.
Qed.

Lemma findByUsername_snoc (n : string) (users : Auth.Store) (user : Auth.User) :
  (forall u, In u users -> Auth.username u <> n) ->
  Auth.username user = n ->
  Auth.findByUsername n (users ++ [user]) = Some user.
Proof.
  intros Hnone Hn. unfold Auth.findByUsername.
  induction users as [ | u users IH]; cbn.
  - now rewrite Hn, String.eqb_refl.
  - assert (Hu : String.eqb (Auth.username u) n = false)
      by (apply String.eqb_neq, Hnone; now left).
    rewrite Hu. apply IH. intros v Hv. apply Hnone. now right.
Qed.

(** What [verify] makes of a token [sign] produced. *)
Lemma verify_sign (mac : string -> string -> string) (env : Env)
    (now id expiresIn later : N) (token : string) :
  Auth.sign mac env now id expiresIn = Auth.Ok token ->
  Auth.verify mac env later token
  = if (later <? now + expiresIn)%N
    then Some (Auth.mkClaims id (now + expiresIn))
    else None.
Proof.
  intros (secret & Hs & ->)%AuthFacts.sign_Ok.
  unfold Auth.verify. rewrite Hs. cbn [append].
  rewrite AuthFacts.cut_append by apply AuthFacts.free_encode.
  now rewrite String.eqb_refl, AuthFacts.decode_encode.
Qed.

Lemma NoDup_snoc {A : Type} (l : list A) (x : A) :
  NoDup l -> ~ In x l -> NoDup (l ++ [x]).
Proof.
  induction 1 as [ | y l Hy Hl IH]; cbn; intros Hx.
  - constructor; [easy | constructor].
  - constructor.
    + rewrite in_app_iff. cbn. intros [H | [H | []]]; [easy|].
      apply Hx. now left.
    + apply IH. intros H. apply Hx. now right.
Qed.

(** X6: whoever has just been registered can log in with the username and
    the password of the form, provided the signing secret is configured, and
    the token of that login authenticates as the new user's identifier until
    it expires. *)
Theorem registered_user_can_log_in :
  forall hash mac session env secret now later users f user users',
    Auth.register hash users f = (Auth.Ok user, users') ->
    JWT_SECRET env = Some secret ->
    (later < now + session)%N ->
    exists token,
      Auth.post_login hash mac session env now users'
        (Some (Auth.form_username f)) (Some (Auth.form_password f))
      = Auth.mkReply 200 (Some token)
      /\ Auth.authenticate mac env later token
         = Auth.Ok (Auth.mkClaims (Auth._id user) (now + session)).
Proof.
  intros hash mac session env secret now later users f user users'
         Hreg Hsecret Hlater.
  apply register_Ok in Hreg as (_ & Hfree & Huser & ->).
  assert (Hfind : Auth.findByUsername (Auth.form_username f) (users ++ [user])
                  = Some user).
  { apply findByUsername_snoc; [|now subst user].
    intros u Hu. now apply (not_taken f users Hfree u Hu). }
  destruct (Auth.sign mac env now (Auth._id user) session) as [token | e]
    eqn:Hsign.
  - exists token. split.
    + unfold Auth.post_login, Auth.login. rewrite Hfind.
      replace (Auth.password user) with (hash (Auth.form_password f))
        by now subst user.
      now rewrite String.eqb_refl, Hsign.
    + unfold Auth.authenticate.
      rewrite (verify_sign mac env now (Auth._id user) session later token
                 Hsign).
      apply N.ltb_lt in Hlater. now rewrite Hlater.
  - unfold Auth.sign in Hsign. now rewrite Hsecret in Hsign.
Qed.

Lemma registered_user_can_log_in_witness :
  exists token,
    Auth.post_login sample_hash sample_mac 3600 production 0 [mockUser]
      (Some "__test__") (Some "1")
    = Auth.mkReply 200 (Some token)
    /\ Auth.authenticate sample_mac production 10 token
       = Auth.Ok (Auth.mkClaims 1 3600).
Proof.
  apply (registered_user_can_log_in sample_hash sample_mac 3600 production
           "s3cret" 0 10 []
           (Auth.mkForm "__test__" "__test__@__test__.com" "1" "1")
           mockUser [mockUser]); reflexivity.
Defined.

(** X7: registration keeps usernames and emails unique: if no two records
    of the store share a username or an email, the same holds of the store
    after any call of register, whether it succeeds or fails. *)
Theorem register_keeps_unique :
  forall hash users f,
    NoDup (map Auth.username users) ->
    NoDup (map Auth.email users) ->
    NoDup (map Auth.username (snd (Auth.register hash users f)))
    /\ NoDup (map Auth.email (snd (Auth.register hash users f))).
Proof.
  intros hash users f Hnames Hmails.
  destruct (Auth.register hash users f) as [[user | e] users'] eqn:Hreg.
  - apply register_Ok in Hreg as (_ & Hfree & Huser & ->).
    cbn [snd]. rewrite !map_app. cbn [map].
    split; apply NoDup_snoc; try assumption;
      intros (u & Hu & Hin)%in_map_iff;
      destruct (not_taken f users Hfree u Hin) as [Hn Hm];
      subst user; cbn in Hu; congruence.
  - assert (Hsame : snd (Auth.register hash users f) = users)
      by (apply (register_Fail hash users f e); now rewrite Hreg).
    rewrite Hreg in Hsame. cbn [snd] in *. now subst users'.
Qed.

Lemma register_keeps_unique_witness :
  NoDup (map Auth.username
           (snd (Auth.register sample_hash [mockUser]
                   (Auth.mkForm "asdf" "blah@blah.com" "password"
                                "password"))))
  /\ NoDup (map Auth.email
              (snd (Auth.register sample_hash [mockUser]
                      (Auth.mkForm "asdf" "blah@blah.com" "password"
                                   "password")))).
Proof.
  apply (register_keeps_unique sample_hash [mockUser]
           (Auth.mkForm "asdf" "blah@blah.com" "password" "password"));
    (constructor; [intros [] | constructor]).
Defined.

(** X8: a form that has just been registered cannot be registered again:
    the second call is answered with 400 and leaves the store as the first
    call left it. *)
Theorem register_twice :
  forall hash users f user users',
    Auth.register hash users f = (Auth.Ok user, users') ->
    Auth.post_register hash users' f = (Auth.mkReply 400 None, users').
Proof.
  intros hash users f user users' Hreg.
  apply register_Ok in Hreg as (Hpw & _ & Huser & ->).
  unfold Auth.post_register, Auth.register.
  rewrite Hpw, String.eqb_refl. cbn [negb].
  rewrite existsb_app. cbn [existsb].
  assert (Htaken : Auth.taken f user = true).
  { unfold Auth.taken. subst user. cbn. now rewrite String.eqb_refl. }
  now rewrite Htaken, orb_true_r.
Qed.

Lemma register_twice_witness :
  Auth.post_register sample_hash [mockUser]
    (Auth.mkForm "__test__" "__test__@__test__.com" "1" "1")
  = (Auth.mkReply 400 None, [mockUser]).
Proof.
  apply (register_twice sample_hash []
           (Auth.mkForm "__test__" "__test__@__test__.com" "1" "1")
           mockUser [mockUser]).
  reflexivity.
Defined.

(** X9: a token that carries well-formed claims and any signature other
    than the one the secret gives for them is answered with 401, whatever
    the claims and the time: only the signature part decides. *)
Theorem forged_signature_unauthorized :
  forall mac env secret claims signature later,
    JWT_SECRET env = Some secret ->
    signature <> mac secret (Auth.encode claims) ->
    Auth.post_authenticate mac env later
      (Auth.encode claims ++ "." ++ signature)
    = Auth.mkReply 401 None.
Proof.
  intros mac env secret claims signature later Hsecret Hsig.
  unfold Auth.post_authenticate, Auth.authenticate, Auth.verify.
  rewrite Hsecret. cbn [append].
  rewrite AuthFacts.cut_append by apply AuthFacts.free_encode.
  apply String.eqb_neq in Hsig. now rewrite Hsig.
Qed.

Lemma forged_signature_unauthorized_witness :
  Auth.post_authenticate sample_mac production 10 "1,3600.00000"
  = Auth.mkReply 401 None.
Proof.
  apply (forged_signature_unauthorized sample_mac production "s3cret"
           (Auth.mkClaims 1 3600) "00000" 10).
  - reflexivity.
  - cbv. discriminate.
Defined.

(** X10: login hands out a token only for the username and password of a
    record of the store: whenever the answer carries a token, the status is
    200, the request named a stored user whose stored password is the hash
    of the password sent, and the token is the one signed for that user's
    identifier. *)
Theorem login_token_sound :
  forall hash mac session env now users name pass token,
    Auth.jwt (Auth.post_login hash mac session env now users name pass)
    = Some token ->
    Auth.status (Auth.post_login hash mac session env now users name pass)
    = 200%N
    /\ exists n p user,
         name = Some n /\ pass = Some p
         /\ In user users
         /\ Auth.username user = n
         /\ hash p = Auth.password user
         /\ Auth.sign mac env now (Auth._id user) session = Auth.Ok token.
Proof.
  intros hash mac session env now users name pass token.
  unfold Auth.post_login, Auth.login.
  destruct name as [n | ]; [|discriminate].
  destruct pass as [p | ]; [|discriminate].
  destruct (Auth.findByUsername n users) as [user | ] eqn:Hfind;
    [|discriminate].
  destruct (String.eqb (hash p) (Auth.password user)) eqn:Hpw;
    [|discriminate].
  destruct (Auth.sign mac env now (Auth._id user) session) as [t | e]
    eqn:Hsign; [|discriminate].
  cbn. intros [= ->]. split; [reflexivity|].
  apply find_some in Hfind as [Hin Hname].
  apply String.eqb_eq in Hname, Hpw.
  now exists n, p, user.
Qed.

Lemma login_token_sound_witness :
  exists n p user,
    Some "__test__" = Some n /\ Some "1" = Some p
    /\ In user [mockUser]
    /\ Auth.username user = n
    /\ sample_hash p = Auth.password user
    /\ Auth.sign sample_mac production 0 (Auth._id user) 3600
       = Auth.Ok sample_token.
Proof.
  apply (login_token_sound sample_hash sample_mac 3600 production 0
           [mockUser] (Some "__test__") (Some "1") sample_token).
  reflexivity.
Defined.

(** X11: a signed token is accepted exactly until it expires: authenticate
    answers 200 at every time before [now + expiresIn] and 401 from then
    on. *)
Theorem signed_token_valid_until_expiry :
  forall mac env now id expiresIn token later,
    Auth.sign mac env now id expiresIn = Auth.Ok token ->
    ((later < now + expiresIn)%N ->
     Auth.post_authenticate mac env later token = Auth.mkReply 200 None)
    /\ ((now + expiresIn <= later)%N ->
        Auth.post_authenticate mac env later token = Auth.mkReply 401 None).
Proof.
  intros mac env now id expiresIn token later Hsign.
  unfold Auth.post_authenticate, Auth.authenticate.
  rewrite (verify_sign mac env now id expiresIn later token Hsign).
  split; intros H.
  - apply N.ltb_lt in H. now rewrite H.
  - apply N.ltb_ge in H. now rewrite H.
Qed.

Lemma signed_token_valid_until_expiry_witness :
  Auth.post_authenticate sample_mac production 3599 sample_token
  = Auth.mkReply 200 None
  /\ Auth.post_authenticate sample_mac production 3600 sample_token
     = Auth.mkReply 401 None.
Proof.
  destruct (signed_token_valid_until_expiry sample_mac production 0 1 3600
              sample_token 3599 eq_refl) as [Hbefore _].
  destruct (signed_token_valid_until_expiry sample_mac production 0 1 3600
              sample_token 3600 eq_refl) as [_ Hafter].
  split; [apply Hbefore | apply Hafter]; reflexivity.
Defined.
